(** * metadata-csvw-jsonld: the ashe-example program

    A shallow embedding of [csvw/ashe-example/main.go]: the program fetches
    one dataset-metadata document, projects it into a CSVW document,
    synthesises the column descriptors from a fixed V4 header row and the
    notes from the alerts and usage notes, and prints the result as JSON.

    Go strings are byte sequences and are modelled as [string]; Go's [int]
    is a 64-bit signed integer, modelled as [Z] with the wrap-around written
    out; a panic, [log.Fatal] and the normal return are the three ways a
    call can end. *)

From Stdlib Require Import ZArith Ascii String DecimalString Lia.
From stdpp Require Import base option list list_numbers strings gmap fin_maps.

Local Open Scope Z_scope.

(** ** Go primitives used by the program *)

Module Go.

(** How a call ends: it returns, it panics, or the process exits
    ([log.Fatal] is a print followed by [os.Exit(1)]). *)
Inductive result (A : Type) : Type :=
| Ok (a : A)
| Panic (msg : string)
| Exit (code : Z).
Arguments Ok {A} a.
Arguments Panic {A} msg.
Arguments Exit {A} code.

Definition bind {A B} (r : result A) (k : A -> result B) : result B :=
  match r with
  | Ok a => k a
  | Panic msg => Panic msg
  | Exit code => Exit code
  end.

(** What the process has written so far: [fmt.Println] goes to standard
    output, the [log] package to standard error (the time stamp that
    [log] puts before each line is left out). *)
Record output : Type := mkOutput { stdout : list string; stderr : list string }.

Definition noOutput : output := mkOutput [] [].

(** An effectful call: it threads the output and ends in a [result]. *)
Definition M (A : Type) : Type := output -> result A * output.

Definition ret {A} (a : A) : M A := fun out => (Ok a, out).

Definition mbind {A B} (m : M A) (k : A -> M B) : M B :=
  fun out =>
    match m out with
    | (Ok a, out') => k a out'
    | (Panic msg, out') => (Panic msg, out')
    | (Exit code, out') => (Exit code, out')
    end.

Definition lift {A} (r : result A) : M A := fun out => (r, out).

Definition panic {A} (msg : string) : M A := lift (Panic msg).

Definition Println (line : string) : M unit :=
  fun out => (Ok tt, mkOutput (stdout out ++ [line]) (stderr out)).

Definition logPrintln (line : string) : M unit :=
  fun out => (Ok tt, mkOutput (stdout out) (stderr out ++ [line])).

Definition logFatal {A} (line : string) : M A :=
  fun out => (Exit 1, mkOutput (stdout out) (stderr out ++ [line])).

(** The run-time panics the program can meet. *)
Definition indexOutOfRange : string := "runtime error: index out of range".
Definition sliceOutOfRange : string := "runtime error: slice bounds out of range".
Definition nilDereference : string :=
  "runtime error: invalid memory address or nil pointer dereference".

(** [int] is 64 bits wide; additions wrap. *)
Definition minInt : Z := - 2 ^ 63.
Definition maxInt : Z := 2 ^ 63 - 1.
Definition wrap (z : Z) : Z := (z + 2 ^ 63) mod 2 ^ 64 - 2 ^ 63.
Definition add (a b : Z) : Z := wrap (a + b).

(** [s[i]] on a slice: a panic outside [0 <= i < len(s)]. *)
Definition index {A} (s : list A) (i : Z) : result A :=
  if (0 <=? i) && (i <? Z.of_nat (length s)) then
    match s !! Z.to_nat i with
    | Some x => Ok x
    | None => Panic indexOutOfRange
    end
  else Panic indexOutOfRange.

(** [s[low:]] on a slice: a panic outside [0 <= low <= len(s)]. *)
Definition sliceFrom {A} (s : list A) (low : Z) : result (list A) :=
  if (0 <=? low) && (low <=? Z.of_nat (length s)) then Ok (drop (Z.to_nat low) s)
  else Panic sliceOutOfRange.

(** A [for] loop over a known range of indices, the body threading the
    loop-carried state and able to end the call early. *)
Fixpoint forEach {I S} (body : S -> I -> M S) (s : S) (range : list I) : M S :=
  match range with
  | [] => ret s
  | i :: range' => mbind (body s i) (fun s' => forEach body s' range')
  end.

(** [for i := lo; i <= hi; i++]. *)
Definition upTo (lo hi : Z) : list Z := seqZ lo (hi - lo + 1).

(** [for i := 0; i < n; i = i + 2]. *)
Definition evensBelow (n : Z) : list Z := (fun k => 2 * k) <$> seqZ 0 ((n + 1) / 2).

(** [strings.Split(s, sep)] for a one-byte separator, which is how the
    program calls it (with "," and with "_"): the pieces between the
    separators, in order; a string without the separator is the only
    piece, the empty string included. *)
Fixpoint Split (s : string) (sep : ascii) : list string :=
  match s with
  | EmptyString => [EmptyString]
  | String c s' =>
      if Ascii.eqb c sep then EmptyString :: Split s' sep
      else match Split s' sep with
           | piece :: pieces => String c piece :: pieces
           | [] => [String c EmptyString]
           end
  end.

Definition byteOf (c : ascii) : Z := Z.of_N (N_of_ascii c).

Definition isASCII (s : string) : bool :=
  forallb (fun c => byteOf c <? 128) (list_ascii_of_string s).

(** [strings.ToLower] on its byte-wise path, the one taken by a string of
    ASCII bytes: 'A'..'Z' move to 'a'..'z', every other byte stays. *)
Definition lowerByte (c : ascii) : ascii :=
  if (65 <=? byteOf c) && (byteOf c <=? 90)
  then ascii_of_N (N_of_ascii c + 32) else c.

Fixpoint ToLower (s : string) : string :=
  match s with
  | EmptyString => EmptyString
  | String c s' => String (lowerByte c) (ToLower s')
  end.

(** [strconv.Itoa]: the decimal representation, "-" before a negative. *)
Definition Itoa (i : Z) : string := NilZero.string_of_int (Z.to_int i).

(** [strconv.Atoi]: an optional sign, then one or more decimal digits and
    nothing else, the value within [int]; anything else is an error. *)
Definition digitOf (c : ascii) : option Z :=
  if (48 <=? byteOf c) && (byteOf c <=? 57) then Some (byteOf c - 48) else None.

Fixpoint digits (s : string) (acc : Z) : option Z :=
  match s with
  | EmptyString => Some acc
  | String c s' =>
      match digitOf c with
      | Some d => digits s' (10 * acc + d)
      | None => None
      end
  end.

Definition Atoi (s : string) : option Z :=
  let '(negative, body) :=
    match s with
    | String "-" rest => (true, rest)
    | String "+" rest => (false, rest)
    | _ => (false, s)
    end in
  match body with
  | EmptyString => None
  | _ =>
      match digits body 0 with
      | Some n =>
          let v := if negative : bool then - n else n in
          if (minInt <=? v) && (v <=? maxInt) then Some v else None
      | None => None
      end
  end.

End Go.

Import Go.

Notation "x <- m ;; k" := (Go.mbind m (fun x => k))
  (at level 100, m at next level, right associativity, only parsing).

(** ** The data model *)

(** Go's [error] values, kept as the text of their [Error()]. *)
Definition error : Type := string.

(** Modelled from the spec: the structs of the [models] package of
    dp-dataset-api, which this program imports and does not declare. Their
    fields are the ones the program reads: a dimension has a name, a label,
    a description and a reference URL; an alert and a usage note have the
    two fields [addNotes] copies; the publisher has a name, a type and a
    reference URL; the downloads include a CSV link. *)
Module models.

Record CodeList : Type := mkCodeList {
  CodeList_Description : string;
  CodeList_HRef : string;
  CodeList_Label : string;
  CodeList_Name : string }.

Record Alert : Type := mkAlert {
  Alert_Description : string;
  Alert_Type : string }.

Record UsageNote : Type := mkUsageNote {
  UsageNote_Note : string;
  UsageNote_Title : string }.

Record Publisher : Type := mkPublisher {
  Publisher_HRef : string;
  Publisher_Name : string;
  Publisher_Type : string }.

Record DownloadObject : Type := mkDownloadObject {
  DownloadObject_HRef : string }.

Record DownloadList : Type := mkDownloadList {
  DownloadList_CSV : DownloadObject }.

(** The zero value of a dimension: what [var dim models.CodeList] holds. *)
Definition zeroCodeList : CodeList := mkCodeList "" "" "" "".

End models.

Import models.

(** [type Column map[string]interface{}]: the values the program stores are
    strings and booleans. *)
Inductive value : Type :=
| VString (s : string)
| VBool (b : bool).

Abbreviation Column := (gmap string value).

Record Note : Type := mkNote {
  Note_Type : string;
  Note_Target : string;
  Note_Body : string;
  Note_Motivation : string }.

Record Creator : Type := mkCreator {
  Creator_Name : string;
  Creator_Type : string;
  Creator_ID : string }.

Record Columns : Type := mkColumns {
  Columns_C : list Column;
  Columns_About : string }.

(** ** Note synthesis *)

(** [addNotes]: two loops appending to one slice ([lst] is the source's
    [list]). A field that a composite literal does not name holds its zero
    value, so [Motivation] is the empty string. *)
Definition addNotes (url : string) (alerts : list Alert) (notes : list UsageNote)
  : list Note :=
  let lst : list Note := [] in
  let lst :=
    fold_left (fun lst a =>
      lst ++ [ {| Note_Type := Alert_Type a;
                   Note_Body := Alert_Description a;
                   Note_Target := url;
                   Note_Motivation := "" |} ]) alerts lst in
  let lst :=
    fold_left (fun lst u =>
      lst ++ [ {| Note_Type := UsageNote_Title u;
                   Note_Body := UsageNote_Note u;
                   Note_Target := url +:+ "#col=need-to-store";
                   Note_Motivation := "" |} ]) notes lst in
  lst.

(** ** Column synthesis *)

Definition headerRow : string :=
  "V4_2,Data marking,Coefficient of variation,Time_codelist,Time,ashe-geography,Geography,Hours_codelist,Hours,Sex_codelist,Sex,WorkingPattern_codelist,WorkingPattern,Statistics_codelist,Statistics".

(** The four column literals of [populateColumns]. Go's [+] associates to
    the left, and the concatenations are nested the same way. *)
Definition observationColumn (title unit csvURL : string) : Column :=
  list_to_map
    [ ("titles", VString title);
      ("name", VString unit);
      ("datatype", VString "number");
      ("required", VBool true);
      ("@id", VString (csvURL +:+ "#col=0")) ].

Definition markingColumn (title csvURL : string) (i : Z) : Column :=
  list_to_map
    [ ("titles", VString title);
      ("@id", VString ((csvURL +:+ "#col=") +:+ Itoa i)) ].

Definition codeColumn (codeHeader : string) (dim : CodeList) (csvURL : string)
  (pos : Z) : Column :=
  list_to_map
    [ ("name", VString codeHeader);
      ("@id", VString ((csvURL +:+ "#col=") +:+ Itoa pos));
      ("valueURL",
       VString (((CodeList_HRef dim +:+ "/codes/{") +:+ codeHeader) +:+ "}"));
      ("required", VBool true) ].

Definition labelColumn (dimHeader : string) (dim : CodeList) (csvURL : string)
  (pos : Z) : Column :=
  list_to_map
    [ ("titles", VString (CodeList_Label dim));
      ("name", VString dimHeader);
      ("description", VString (CodeList_Description dim));
      ("@id", VString ((csvURL +:+ "#col=") +:+ Itoa pos)) ].

(** The inner loop of [populateColumns]: [dim] keeps its value until a
    dimension with the wanted name is met, and the loop stops there. *)
Fixpoint findDim (dims : list CodeList) (dimHeader : string) (dim : CodeList)
  : CodeList :=
  match dims with
  | [] => dim
  | d :: dims' =>
      if String.eqb (CodeList_Name d) dimHeader then d
      else findDim dims' dimHeader dim
  end.

(** One round of the dimensions loop, at index [i] of the remaining header. *)
Definition dimensionStep (header : list string) (dims : list CodeList)
  (csvURL : string) (offset : Z) (lst : list Column) (i : Z) : M (list Column) :=
  codeHeader <- lift (index header i);;
  dimHeader <- lift (index header (add i 1));;
  let dimHeader := ToLower dimHeader in
  let dim := findDim dims dimHeader zeroCodeList in
  let codeCol := codeColumn codeHeader dim csvURL (add offset i) in
  let labelCol := labelColumn dimHeader dim csvURL (add (add offset i) 1) in
  ret (lst ++ [codeCol; labelCol]).

(** One round of the data-markings loop. *)
Definition markingStep (header : list string) (csvURL : string)
  (lst : list Column) (i : Z) : M (list Column) :=
  title <- lift (index header i);;
  ret (lst ++ [markingColumn title csvURL i]).

Definition populateColumns (dims : list CodeList) (unit csvURL : string)
  : M (list Column) :=
  let lst : list Column := [] in
  let header := Split headerRow "," in
  header0 <- lift (index header 0);;
  let parts := Split header0 "_" in
  _ <- (if negb (Z.of_nat (length parts) =? 2) then
          parts0 <- lift (index parts 0);;
          _ <- Println ((parts0 +:+ " --- ") +:+ header0);;
          panic "not valid v4 header"
        else ret tt);;
  parts1 <- lift (index parts 1);;
  offset <- match Atoi parts1 with
            | Some n => ret n
            | None => panic "not valid v4 header"
            end;;
  let col := observationColumn header0 unit csvURL in
  let lst := lst ++ [col] in
  lst <- (if negb (offset =? 0)
          then forEach (markingStep header csvURL) lst (upTo 1 offset)
          else ret lst);;
  let offset := add offset 1 in
  header <- lift (sliceFrom header offset);;
  forEach (dimensionStep header dims csvURL offset) lst
    (evensBelow (Z.of_nat (length header))).

(** ** The documents, the fetch and the top-level projection *)

Section Documents.

(** [models.ContactDetails] is declared by dp-dataset-api; the program only
    moves a contact from one document to the other, so its type stays a
    parameter. *)
Context {ContactDetails : Type}.

(** Modelled from the spec: [models.Metadata], declared by dp-dataset-api.
    The alerts and the usage notes are behind pointers ([main] compares them
    with [nil] and dereferences them), the contacts are a slice, and the
    publisher and the downloads are the nested values the spec lists. *)
Record Metadata : Type := mkMetadata {
  Metadata_Alerts : option (list Alert);
  Metadata_Contacts : list ContactDetails;
  Metadata_Description : string;
  Metadata_Dimensions : list CodeList;
  Metadata_Downloads : DownloadList;
  Metadata_License : string;
  Metadata_Publisher : Publisher;
  Metadata_ReleaseDate : string;
  Metadata_ReleaseFrequency : string;
  Metadata_Theme : string;
  Metadata_Title : string;
  Metadata_UnitOfMeasure : string;
  Metadata_UsageNotes : option (list UsageNote) }.

(** The zero value: what [var md models.Metadata] holds. *)
Definition zeroMetadata : Metadata :=
  {| Metadata_Alerts := None;
     Metadata_Contacts := [];
     Metadata_Description := "";
     Metadata_Dimensions := [];
     Metadata_Downloads := mkDownloadList (mkDownloadObject "");
     Metadata_License := "";
     Metadata_Publisher := mkPublisher "" "" "";
     Metadata_ReleaseDate := "";
     Metadata_ReleaseFrequency := "";
     Metadata_Theme := "";
     Metadata_Title := "";
     Metadata_UnitOfMeasure := "";
     Metadata_UsageNotes := None |}.

Record CSVW : Type := mkCSVW {
  CSVW_Context : string;
  CSVW_URL : string;
  CSVW_Title : string;
  CSVW_Description : string;
  CSVW_Issued : string;
  CSVW_Creator : Creator;
  CSVW_Contact : ContactDetails;
  CSVW_TableSchema : Columns;
  CSVW_Theme : string;
  CSVW_License : string;
  CSVW_Frequency : string;
  CSVW_Notes : list Note }.

(** Assignments through the pointer [assignTopLevel] returns. *)
Definition setTableSchema (csv : CSVW) (ts : Columns) : CSVW :=
  {| CSVW_Context := CSVW_Context csv;
     CSVW_URL := CSVW_URL csv;
     CSVW_Title := CSVW_Title csv;
     CSVW_Description := CSVW_Description csv;
     CSVW_Issued := CSVW_Issued csv;
     CSVW_Creator := CSVW_Creator csv;
     CSVW_Contact := CSVW_Contact csv;
     CSVW_TableSchema := ts;
     CSVW_Theme := CSVW_Theme csv;
     CSVW_License := CSVW_License csv;
     CSVW_Frequency := CSVW_Frequency csv;
     CSVW_Notes := CSVW_Notes csv |}.

Definition setNotes (csv : CSVW) (notes : list Note) : CSVW :=
  {| CSVW_Context := CSVW_Context csv;
     CSVW_URL := CSVW_URL csv;
     CSVW_Title := CSVW_Title csv;
     CSVW_Description := CSVW_Description csv;
     CSVW_Issued := CSVW_Issued csv;
     CSVW_Creator := CSVW_Creator csv;
     CSVW_Contact := CSVW_Contact csv;
     CSVW_TableSchema := CSVW_TableSchema csv;
     CSVW_Theme := CSVW_Theme csv;
     CSVW_License := CSVW_License csv;
     CSVW_Frequency := CSVW_Frequency csv;
     CSVW_Notes := notes |}.

(** [*p] and [p.f] on a pointer: a panic on [nil]. *)
Definition deref {A} (p : option A) : result A :=
  match p with
  | Some a => Ok a
  | None => Panic nilDereference
  end.

(** [assignTopLevel]: the fields of the literal are evaluated in the order
    they are written, so a [nil] document panics at [m.Downloads] and an
    empty contacts slice at [m.Contacts[0]]. The fields the literal leaves
    out ([TableSchema], [Notes]) hold their zero value. *)
Definition assignTopLevel (m : option Metadata) : result CSVW :=
  Go.bind (deref m) (fun m =>
  Go.bind (index (Metadata_Contacts m) 0) (fun contact =>
  Ok {| CSVW_Context := "http://www.w3.org/ns/csvw";
        CSVW_URL := DownloadObject_HRef (DownloadList_CSV (Metadata_Downloads m));
        CSVW_Title := Metadata_Title m;
        CSVW_Description := Metadata_Description m;
        CSVW_Issued := Metadata_ReleaseDate m;
        CSVW_Theme := Metadata_Theme m;
        CSVW_License := Metadata_License m;
        CSVW_Frequency := Metadata_ReleaseFrequency m;
        CSVW_Contact := contact;
        CSVW_Creator :=
          {| Creator_Name := Publisher_Name (Metadata_Publisher m);
             Creator_Type := Publisher_Type (Metadata_Publisher m);
             Creator_ID := Publisher_HRef (Metadata_Publisher m) |};
        CSVW_TableSchema := mkColumns [] "";
        CSVW_Notes := [] |})).

(** *** The world outside the process

    [net/http] and [encoding/json] are libraries, and what they answer
    depends on the network: they are the parameters of the fetch. *)

Record Request : Type := mkRequest { Request_Method : string; Request_URL : string }.

(** A response body: the bytes [ioutil.ReadAll] gets out of it and the
    error the read ends with, if any. *)
Record Body : Type := mkBody { Body_data : string; Body_err : option error }.

Record Response : Type := mkResponse { Response_Body : Body }.

Record World : Type := mkWorld {
  (** [http.NewRequest(method, url, nil)] *)
  NewRequest : string -> string -> error + Request;
  (** [client.Do(req)] *)
  Do : Request -> error + Response;
  (** [json.Unmarshal(b, &md)]: the document as decoding leaves it, and the
      error decoding ends with, if any *)
  Unmarshal : string -> Metadata -> Metadata * option error;
  (** [json.Marshal(csv)] *)
  Marshal : CSVW -> error + string }.

Definition ReadAll (body : Body) : string * option error :=
  (Body_data body, Body_err body).

(** [getMetadata]. A [nil] result is [None]. [log.Fatal] ends the process,
    so the [return nil] that follows it is never reached. Closing the body
    has no effect the program can see. *)
Definition getMetadata (w : World) (url : string) : M (option Metadata) :=
  match NewRequest w "GET" url with
  | inl err => logFatal ("NewRequest: " +:+ err)
  | inr req =>
      match Do w req with
      | inl err => logFatal ("Do: " +:+ err)
      | inr resp =>
          match ReadAll (Response_Body resp) with
          | (_, Some _) => ret None
          | (b, None) =>
              let md := zeroMetadata in
              let '(md, err) := Unmarshal w b md in
              _ <- match err with
                   | Some err => logPrintln err
                   | None => ret tt
                   end;;
              ret (Some md)
          end
      end
  end.

Definition metadataURL : string :=
  "https://api.beta.ons.gov.uk/v1/datasets/ashe-table-7-hours/editions/time-series/versions/1/metadata".

(** [main]. *)
Definition main (w : World) : M unit :=
  let url := metadataURL in
  metadata <- getMetadata w url;;
  csv <- lift (assignTopLevel metadata);;
  let csv := setTableSchema csv (mkColumns (Columns_C (CSVW_TableSchema csv)) url) in
  md <- lift (deref metadata);;
  let csvHRef := DownloadObject_HRef (DownloadList_CSV (Metadata_Downloads md)) in
  columns <- populateColumns (Metadata_Dimensions md) (Metadata_UnitOfMeasure md) csvHRef;;
  let csv := setTableSchema csv (mkColumns columns (Columns_About (CSVW_TableSchema csv))) in
  let alerts := match Metadata_Alerts md with Some a => a | None => [] end in
  let usage := match Metadata_UsageNotes md with Some u => u | None => [] end in
  let csv := setNotes csv (addNotes csvHRef alerts usage) in
  b <- match Marshal w csv with
       | inl err => panic err
       | inr b => ret b
       end;;
  Println b.

End Documents.

Arguments Metadata : clear implicits.
Arguments CSVW : clear implicits.
Arguments World : clear implicits.

(** ** Marshalling with extra keys *)

(** [type Unknown map[string]string]. *)
Abbreviation Unknown := (gmap string string).

Section Marshal.

Context {ContactDetails Any : Type}.

(** What [marshal] gets from outside: [Any] stands for [interface{}], and
    the order in which a [range] over a map yields its entries is not fixed
    by the language. *)
Record Encoder : Type := mkEncoder {
  (** a string stored in an [interface{}] *)
  boxString : string -> Any;
  (** [structs.Map(st)], of the package fatih/structs *)
  StructsMap : option (CSVW ContactDetails) -> result (gmap string Any);
  (** [json.Marshal(structAsMap)] *)
  MarshalMap : gmap string Any -> error + string;
  (** the entries of a map in the order a [range] yields them *)
  RangeOrder : Unknown -> list (string * string) }.

(** The loop of [marshal], over the entries in the order they are yielded:
    a key the struct map holds already is a panic, any other key is added. *)
Fixpoint rangeUnknown (enc : Encoder) (structAsMap : gmap string Any)
  (entries : list (string * string)) : result (gmap string Any) :=
  match entries with
  | [] => Ok structAsMap
  | (k, v) :: entries' =>
      match structAsMap !! k with
      | Some _ => Panic "key collision"
      | None => rangeUnknown enc (<[k := boxString enc v]> structAsMap) entries'
      end
  end.

(** [marshal]. *)
Definition marshal (enc : Encoder) (st : option (CSVW ContactDetails))
  (ourMap : Unknown) : result string :=
  Go.bind (StructsMap enc st) (fun structAsMap =>
  Go.bind (rangeUnknown enc structAsMap (RangeOrder enc ourMap)) (fun structAsMap =>
  match MarshalMap enc structAsMap with
  | inl err => Panic err
  | inr bytes => Ok bytes
  end)).

End Marshal.

Arguments Encoder : clear implicits.

(** ** Vocabulary of the properties *)

(** The four roles a column descriptor can play, told apart by the set of
    attributes the descriptor carries. *)
Inductive ColumnRole : Type :=
| Observation
| Marking
| DimensionCode
| DimensionLabel.

Definition columnRole (c : Column) : option ColumnRole :=
  if decide (dom c = {["titles"; "name"; "datatype"; "required"; "@id"]})
  then Some Observation
  else if decide (dom c = {["titles"; "@id"]})
  then Some Marking
  else if decide (dom c = {["name"; "@id"; "valueURL"; "required"]})
  then Some DimensionCode
  else if decide (dom c = {["titles"; "name"; "description"; "@id"]})
  then Some DimensionLabel
  else None.

(** The two descriptors the dimensions loop emits for one pair of header
    tokens, the code column at position [pos]. *)
Definition dimColumns (dims : list CodeList) (csvURL codeHeader dimHeader : string)
  (pos : Z) : list Column :=
  let dim := findDim dims (ToLower dimHeader) zeroCodeList in
  [ codeColumn codeHeader dim csvURL pos;
    labelColumn (ToLower dimHeader) dim csvURL (pos + 1) ].

(** Attribute [key] of the [i]-th descriptor of a finished call. *)
Definition attribute (r : result (list Column) * output) (i : nat) (key : string)
  : option value :=
  match r.1 with
  | Ok cols => cols !! i ≫= (fun c : Column => c !! key)
  | _ => None
  end.

(** The value of the "@id" attribute at position [i]: the CSV URL followed
    by the fragment "#col=" and the decimal position. *)
Definition positionId (csvURL : string) (i : Z) : option value :=
  Some (VString (csvURL +:+ "#col=" +:+ Itoa i)).

(** A call that ends in a panic. *)
Definition panics {A} (r : result A) : Prop := exists msg, r = Panic msg.

(** ** Sample documents and worlds *)

Definition timeDimension : CodeList :=
  {| CodeList_Description := "The period the figures cover";
     CodeList_HRef := "https://api.beta.ons.gov.uk/v1/code-lists/time";
     CodeList_Label := "Time";
     CodeList_Name := "time" |}.

(** The same dimension stored under a name in upper case. *)
Definition upperCaseTimeDimension : CodeList :=
  {| CodeList_Description := "The period the figures cover";
     CodeList_HRef := "https://api.beta.ons.gov.uk/v1/code-lists/time";
     CodeList_Label := "Time";
     CodeList_Name := "TIME" |}.

Definition sampleCSV : string := "https://download.beta.ons.gov.uk/ashe-table-7-hours.csv".

Definition sampleMetadata : Metadata string :=
  {| Metadata_Alerts := Some [mkAlert "Figures revised" "correction"];
     Metadata_Contacts := ["statistician@example.org"; "press@example.org"];
     Metadata_Description := "Hours worked by employees";
     Metadata_Dimensions := [timeDimension];
     Metadata_Downloads := mkDownloadList (mkDownloadObject sampleCSV);
     Metadata_License := "Open Government Licence v3.0";
     Metadata_Publisher :=
       mkPublisher "https://www.ons.gov.uk" "Office for National Statistics"
         "organisation";
     Metadata_ReleaseDate := "2017-10-26";
     Metadata_ReleaseFrequency := "Annual";
     Metadata_Theme := "Earnings";
     Metadata_Title := "ASHE table 7";
     Metadata_UnitOfMeasure := "hours";
     Metadata_UsageNotes := None |}.

(** A document like [sampleMetadata] with no contact. *)
Definition noContactMetadata : Metadata string :=
  {| Metadata_Alerts := None;
     Metadata_Contacts := [];
     Metadata_Description := "Hours worked by employees";
     Metadata_Dimensions := [timeDimension];
     Metadata_Downloads := mkDownloadList (mkDownloadObject sampleCSV);
     Metadata_License := "Open Government Licence v3.0";
     Metadata_Publisher :=
       mkPublisher "https://www.ons.gov.uk" "Office for National Statistics"
         "organisation";
     Metadata_ReleaseDate := "2017-10-26";
     Metadata_ReleaseFrequency := "Annual";
     Metadata_Theme := "Earnings";
     Metadata_Title := "ASHE table 7";
     Metadata_UnitOfMeasure := "hours";
     Metadata_UsageNotes := None |}.

(** A world in which the request is built and answered, and the connection
    drops while the body is read. *)
Definition readFailureWorld : World string :=
  {| NewRequest := fun method url => inr (mkRequest method url);
     Do := fun _ => inr (mkResponse (mkBody "{" (Some "unexpected EOF")));
     Unmarshal := fun _ md => (md, None);
     Marshal := fun _ => inr "{}" |}.

(** A world in which the body is not JSON at all: the decoder rejects it
    before it stores anything. *)
Definition syntaxErrorWorld : World string :=
  {| NewRequest := fun method url => inr (mkRequest method url);
     Do := fun _ => inr (mkResponse (mkBody "<html>Bad Gateway</html>" None));
     Unmarshal := fun _ md =>
       (md, Some "invalid character '<' looking for beginning of value");
     Marshal := fun _ => inr "{}" |}.

(** A world in which the body is a JSON object with a title that decodes and
    a description of the wrong type: [json.Unmarshal] skips the value it
    cannot store, decodes the rest of the object, and reports the mismatch
    once it is done. *)
Definition quoted (s : string) : string :=
  String (ascii_of_nat 34) s +:+ String (ascii_of_nat 34) EmptyString.

Definition typeMismatchBody : string :=
  "{" +:+ quoted "title" +:+ ":" +:+ quoted "ASHE table 7" +:+ ","
      +:+ quoted "description" +:+ ":5}".

Definition titledMetadata : Metadata string :=
  {| Metadata_Alerts := None;
     Metadata_Contacts := [];
     Metadata_Description := "";
     Metadata_Dimensions := [];
     Metadata_Downloads := mkDownloadList (mkDownloadObject "");
     Metadata_License := "";
     Metadata_Publisher := mkPublisher "" "" "";
     Metadata_ReleaseDate := "";
     Metadata_ReleaseFrequency := "";
     Metadata_Theme := "";
     Metadata_Title := "ASHE table 7";
     Metadata_UnitOfMeasure := "";
     Metadata_UsageNotes := None |}.

Definition typeMismatchWorld : World string :=
  {| NewRequest := fun method url => inr (mkRequest method url);
     Do := fun _ => inr (mkResponse (mkBody typeMismatchBody None));
     Unmarshal := fun _ _ =>
       (titledMetadata,
        Some "json: cannot unmarshal number into Go struct field Metadata.description of type string");
     Marshal := fun _ => inr "{}" |}.

(** A world in which the fetch succeeds and the body decodes to
    [sampleMetadata]. *)
Definition sampleWorld : World string :=
  {| NewRequest := fun method url => inr (mkRequest method url);
     Do := fun _ => inr (mkResponse (mkBody "{...}" None));
     Unmarshal := fun _ _ => (sampleMetadata, None);
     Marshal := fun _ => inr "{...}" |}.

(** An encoder over strings: the struct map holds the title and the URL of
    the document under the names of their fields, the entries of a map are
    yielded last key first, and the marshalled text lists the keys. *)
Definition sampleEncoder : Encoder string string :=
  {| boxString := fun s => s;
     StructsMap := fun st =>
       match st with
       | Some csv => Ok (<["Title" := CSVW_Title csv]> {["URL" := CSVW_URL csv]})
       | None => Panic "not struct"
       end;
     MarshalMap := fun m => inr (foldr (fun kv acc => kv.1 +:+ ";" +:+ acc) "" (map_to_list m));
     RangeOrder := fun m => reverse (map_to_list m) |}.

Definition sampleCSVW : CSVW string :=
  {| CSVW_Context := "http://www.w3.org/ns/csvw";
     CSVW_URL := sampleCSV;
     CSVW_Title := "ASHE table 7";
     CSVW_Description := "Hours worked by employees";
     CSVW_Issued := "2017-10-26";
     CSVW_Creator :=
       mkCreator "Office for National Statistics" "organisation" "https://www.ons.gov.uk";
     CSVW_Contact := "statistician@example.org";
     CSVW_TableSchema := mkColumns [] "";
     CSVW_Theme := "Earnings";
     CSVW_License := "Open Government Licence v3.0";
     CSVW_Frequency := "Annual";
     CSVW_Notes := [] |}.

(** Two dimensions under different names, for the order of the list. *)
Definition sexDimension : CodeList :=
  {| CodeList_Description := "The sex of the employees";
     CodeList_HRef := "https://api.beta.ons.gov.uk/v1/code-lists/sex";
     CodeList_Label := "Sex";
     CodeList_Name := "sex" |}.

(** A dimension the header row does not name. *)
Definition ageDimension : CodeList :=
  {| CodeList_Description := "The age group of the employees";
     CodeList_HRef := "https://api.beta.ons.gov.uk/v1/code-lists/age";
     CodeList_Label := "Age";
     CodeList_Name := "age" |}.

(** The names [populateColumns] looks up: the dimension tokens of the
    header row, lowercased. *)
Definition dimensionNames : list string :=
  ["time"; "geography"; "hours"; "sex"; "workingpattern"; "statistics"].

(** The encoder [sampleEncoder] with the entries yielded first key first. *)
Definition forwardEncoder : Encoder string string :=
  {| boxString := boxString sampleEncoder;
     StructsMap := StructsMap sampleEncoder;
     MarshalMap := MarshalMap sampleEncoder;
     RangeOrder := fun m => map_to_list m |}.

(** A world in which the host cannot be reached. *)
Definition unreachableWorld : World string :=
  {| NewRequest := fun method url => inr (mkRequest method url);
     Do := fun _ => inl "dial tcp: lookup api.beta.ons.gov.uk: no such host";
     Unmarshal := fun _ md => (md, None);
     Marshal := fun _ => inr "{...}" |}.

(** A world in which the body decodes to a document without a contact. *)
Definition noContactWorld : World string :=
  {| NewRequest := fun method url => inr (mkRequest method url);
     Do := fun _ => inr (mkResponse (mkBody "{...}" None));
     Unmarshal := fun _ _ => (noContactMetadata, None);
     Marshal := fun _ => inr "{...}" |}.

(** One dimension for each name the header row asks for. *)
Definition namedDimension (name : string) : CodeList :=
  {| CodeList_Description := "";
     CodeList_HRef := "https://api.beta.ons.gov.uk/v1/code-lists/" +:+ name;
     CodeList_Label := name;
     CodeList_Name := name |}.

Definition allDimensions : list CodeList := namedDimension <$> dimensionNames.

(** A second dimension stored under the name "time", with a label and a
    description of its own. *)
Definition laterTimeDimension : CodeList :=
  {| CodeList_Description := "The calendar year";
     CodeList_HRef := "https://api.beta.ons.gov.uk/v1/code-lists/calendar-years";
     CodeList_Label := "Year";
     CodeList_Name := "time" |}.

(** A marshaller that shows what it was given: the title, the URL, the
    "aboutUrl", the contact, the number of columns and the type of each
    note. *)
Definition describe (csv : CSVW string) : string :=
  CSVW_Title csv +:+ " <" +:+ CSVW_URL csv +:+ ">"
  +:+ " about <" +:+ Columns_About (CSVW_TableSchema csv) +:+ ">"
  +:+ " contact " +:+ CSVW_Contact csv
  +:+ " columns " +:+ Itoa (Z.of_nat (length (Columns_C (CSVW_TableSchema csv))))
  +:+ " notes " +:+ foldr (fun n acc => Note_Type n +:+ "," +:+ acc) "" (CSVW_Notes csv).

(** The world [sampleWorld] with that marshaller. *)
Definition describingWorld : World string :=
  {| NewRequest := fun method url => inr (mkRequest method url);
     Do := fun _ => inr (mkResponse (mkBody "{...}" None));
     Unmarshal := fun _ _ => (sampleMetadata, None);
     Marshal := fun csv => inr (describe csv) |}.

(** ** Properties of the Go primitives *)

Lemma bind_Ok {A B} (r : result A) (k : A -> result B) (a : A) :
  r = Ok a -> Go.bind r k = k a.
Proof. intros ->. reflexivity. Qed.

Lemma index_cons_0 {A} (x : A) (xs : list A) : index (x :: xs) 0 = Ok x.
Proof.
  unfold index. cbn [length].
  destruct (Z.ltb_spec 0 (Z.of_nat (S (length xs)))) as [_|Hlen]; [reflexivity | lia].
Qed.

Lemma index_nil {A} (i : Z) : index (@nil A) i = Panic indexOutOfRange.
Proof.
  unfold index. cbn [length].
  destruct (Z.leb_spec 0 i), (Z.ltb_spec i (Z.of_nat 0)); try reflexivity; lia.
Qed.

(** Concatenation is associative, so a URL followed by a fragment reads the
    same whichever way the pieces were joined. *)
Lemma append_assoc (s1 s2 s3 : string) :
  (s1 +:+ s2) +:+ s3 = s1 +:+ (s2 +:+ s3).
Proof.
  induction s1 as [|c s1 IH]; [reflexivity|].
  change (String c ((s1 +:+ s2) +:+ s3) = String c (s1 +:+ (s2 +:+ s3))).
  rewrite IH. reflexivity.
Qed.

(** Every byte of the header row is ASCII, so [strings.ToLower] takes the
    byte-wise path on each of its tokens. *)
Lemma headerRow_isASCII : isASCII headerRow = true.
Proof. vm_compute. exact eq_refl. Qed.

Lemma headerRow_tokens :
  Split headerRow "," =
  [ "V4_2"; "Data marking"; "Coefficient of variation";
    "Time_codelist"; "Time"; "ashe-geography"; "Geography";
    "Hours_codelist"; "Hours"; "Sex_codelist"; "Sex";
    "WorkingPattern_codelist"; "WorkingPattern";
    "Statistics_codelist"; "Statistics" ].
Proof. vm_compute. exact eq_refl. Qed.

(** ** Note synthesis *)

Section AddNotes.

Context {A B : Type} (f : A -> B).

(** A loop that appends one element per round builds the image of the
    range behind what the slice held before. *)
Lemma fold_left_append (l : list A) (init : list B) :
  fold_left (fun acc x => acc ++ [f x]) l init = init ++ (f <$> l).
Proof.
  revert init. induction l as [|x l IH]; intros init; cbn [fold_left fmap list_fmap].
  - symmetry. apply app_nil_r.
  - rewrite IH, <- app_assoc. reflexivity.
Qed.

End AddNotes.

Lemma addNotes_eq (url : string) (alerts : list Alert) (notes : list UsageNote) :
  addNotes url alerts notes =
  ((fun a => mkNote (Alert_Type a) url (Alert_Description a) "") <$> alerts)
  ++ ((fun u => mkNote (UsageNote_Title u) (url +:+ "#col=need-to-store")
                  (UsageNote_Note u) "") <$> notes).
Proof.
  unfold addNotes.
  rewrite (fold_left_append (fun a => mkNote (Alert_Type a) url (Alert_Description a) "")).
  rewrite (fold_left_append
             (fun u => mkNote (UsageNote_Title u) (url +:+ "#col=need-to-store")
                         (UsageNote_Note u) "")).
  reflexivity.
Qed.

(** C4: for N alerts and M usage notes [addNotes] returns N+M notes; the
    first N are the alerts in their order (type and description copied)
    with the bare URL as target, the last M are the usage notes in their
    order (title and note copied) with the URL followed by
    "#col=need-to-store" as target. *)
Theorem addNotes_alerts_then_usage_notes
  (url : string) (alerts : list Alert) (notes : list UsageNote) :
  length (addNotes url alerts notes) = (length alerts + length notes)%nat
  /\ take (length alerts) (addNotes url alerts notes)
     = (fun a => mkNote (Alert_Type a) url (Alert_Description a) "") <$> alerts
  /\ drop (length alerts) (addNotes url alerts notes)
     = (fun u => mkNote (UsageNote_Title u) (url +:+ "#col=need-to-store")
                   (UsageNote_Note u) "") <$> notes
  /\ Note_Target <$> addNotes url alerts notes
     = replicate (length alerts) url
       ++ replicate (length notes) (url +:+ "#col=need-to-store").
Proof.
  rewrite addNotes_eq.
  set (fa := fun a => mkNote (Alert_Type a) url (Alert_Description a) "").
  set (fu := fun u => mkNote (UsageNote_Title u) (url +:+ "#col=need-to-store")
                        (UsageNote_Note u) "").
  assert (Hlen : length (fa <$> alerts) = length alerts) by apply length_fmap.
  repeat split.
  - rewrite length_app, !length_fmap. reflexivity.
  - rewrite <- Hlen at 1. apply take_app_length.
  - rewrite <- Hlen at 1. apply drop_app_length.
  - rewrite fmap_app. f_equal.
    + clear. induction alerts as [|a alerts IH]; [reflexivity|].
      cbn. f_equal. exact IH.
    + clear. induction notes as [|u notes IH]; [reflexivity|].
      cbn. f_equal. exact IH.
Qed.

(** C9: every note [addNotes] produces has the empty string as its
    motivation, whatever the alerts and usage notes are. *)
Theorem addNotes_motivation_empty
  (url : string) (alerts : list Alert) (notes : list UsageNote) :
  Forall (fun n => Note_Motivation n = "") (addNotes url alerts notes).
Proof.
  rewrite addNotes_eq. apply Forall_app. split.
  - induction alerts as [|a alerts IH]; constructor; [reflexivity | exact IH].
  - induction notes as [|u notes IH]; constructor; [reflexivity | exact IH].
Qed.

(** ** Column synthesis *)

Section FindDim.

Variables (dimHeader : string) (zero : CodeList).

(** The lookup stops at the first dimension stored under the wanted name. *)
Lemma findDim_first (pre post : list CodeList) (d : CodeList) :
  Forall (fun e => CodeList_Name e <> dimHeader) pre ->
  CodeList_Name d = dimHeader ->
  findDim (pre ++ d :: post) dimHeader zero = d.
Proof.
  intros Hpre Hd. induction Hpre as [|e pre He _ IH]; cbn [app findDim].
  - rewrite (proj2 (String.eqb_eq _ _) Hd). reflexivity.
  - rewrite (proj2 (String.eqb_neq _ _) He). exact IH.
Qed.

(** With no dimension stored under the wanted name, [dim] keeps its value. *)
Lemma findDim_none (dims : list CodeList) :
  Forall (fun e => CodeList_Name e <> dimHeader) dims ->
  findDim dims dimHeader zero = zero.
Proof.
  induction 1 as [|e dims He _ IH]; cbn [findDim]; [reflexivity|].
  rewrite (proj2 (String.eqb_neq _ _) He). exact IH.
Qed.

Lemma findDim_some (dims : list CodeList) :
  Exists (fun e => CodeList_Name e = dimHeader) dims ->
  findDim dims dimHeader zero ∈ dims
  /\ CodeList_Name (findDim dims dimHeader zero) = dimHeader.
Proof.
  induction dims as [|e dims IH]; intros Hex; [inversion Hex|].
  cbn [findDim]. destruct (String.eqb_spec (CodeList_Name e) dimHeader) as [Heq|Hne].
  - split; [left | exact Heq].
  - inversion Hex as [? ? Hhd | ? ? Htl]; subst; [contradiction|].
    destruct (IH Htl) as [Hin Hname]. split; [right; exact Hin | exact Hname].
Qed.

End FindDim.

(** The whole result of [populateColumns], for any dimensions, unit and URL:
    the header row is a constant, so the call never panics, prints nothing,
    and the dimensions only enter through the six lookups. *)
Lemma populateColumns_eq (dims : list CodeList) (unit csvURL : string) (out : output) :
  populateColumns dims unit csvURL out =
  (Ok ([ observationColumn "V4_2" unit csvURL;
         markingColumn "Data marking" csvURL 1;
         markingColumn "Coefficient of variation" csvURL 2 ]
       ++ dimColumns dims csvURL "Time_codelist" "Time" 3
       ++ dimColumns dims csvURL "ashe-geography" "Geography" 5
       ++ dimColumns dims csvURL "Hours_codelist" "Hours" 7
       ++ dimColumns dims csvURL "Sex_codelist" "Sex" 9
       ++ dimColumns dims csvURL "WorkingPattern_codelist" "WorkingPattern" 11
       ++ dimColumns dims csvURL "Statistics_codelist" "Statistics" 13), out).
Proof.
  lazy -[observationColumn markingColumn codeColumn labelColumn findDim].
  exact eq_refl.
Qed.

Lemma columnRole_observation (title unit csvURL : string) :
  columnRole (observationColumn title unit csvURL) = Some Observation.
Proof. vm_compute. exact eq_refl. Qed.

Lemma columnRole_marking (title csvURL : string) (i : Z) :
  columnRole (markingColumn title csvURL i) = Some Marking.
Proof. vm_compute. exact eq_refl. Qed.

Lemma columnRole_code (codeHeader : string) (dim : CodeList) (csvURL : string) (pos : Z) :
  columnRole (codeColumn codeHeader dim csvURL pos) = Some DimensionCode.
Proof. vm_compute. exact eq_refl. Qed.

Lemma columnRole_label (dimHeader : string) (dim : CodeList) (csvURL : string) (pos : Z) :
  columnRole (labelColumn dimHeader dim csvURL pos) = Some DimensionLabel.
Proof. vm_compute. exact eq_refl. Qed.

Lemma observationColumn_id (title unit csvURL : string) :
  observationColumn title unit csvURL !! "@id" = positionId csvURL 0.
Proof. vm_compute. exact eq_refl. Qed.

Lemma markingColumn_id (title csvURL : string) (i : Z) :
  markingColumn title csvURL i !! "@id" = positionId csvURL i.
Proof.
  unfold positionId. rewrite <- append_assoc. unfold markingColumn.
  generalize (Itoa i). intros s. vm_compute. exact eq_refl.
Qed.

Lemma codeColumn_id (codeHeader : string) (dim : CodeList) (csvURL : string) (pos : Z) :
  codeColumn codeHeader dim csvURL pos !! "@id" = positionId csvURL pos.
Proof.
  unfold positionId. rewrite <- append_assoc. unfold codeColumn.
  generalize (Itoa pos). intros s. vm_compute. exact eq_refl.
Qed.

Lemma labelColumn_id (dimHeader : string) (dim : CodeList) (csvURL : string) (pos : Z) :
  labelColumn dimHeader dim csvURL pos !! "@id" = positionId csvURL pos.
Proof.
  unfold positionId. rewrite <- append_assoc. unfold labelColumn.
  generalize (Itoa pos). intros s. vm_compute. exact eq_refl.
Qed.


Lemma labelColumn_titles (dimHeader : string) (dim : CodeList) (csvURL : string) (pos : Z) :
  labelColumn dimHeader dim csvURL pos !! "titles" = Some (VString (CodeList_Label dim)).
Proof. unfold labelColumn. generalize (Itoa pos). intros s. vm_compute. exact eq_refl. Qed.

Lemma labelColumn_description (dimHeader : string) (dim : CodeList) (csvURL : string) (pos : Z) :
  labelColumn dimHeader dim csvURL pos !! "description"
  = Some (VString (CodeList_Description dim)).
Proof. unfold labelColumn. generalize (Itoa pos). intros s. vm_compute. exact eq_refl. Qed.

Lemma codeColumn_valueURL (codeHeader : string) (dim : CodeList) (csvURL : string) (pos : Z) :
  codeColumn codeHeader dim csvURL pos !! "valueURL"
  = Some (VString (((CodeList_HRef dim +:+ "/codes/{") +:+ codeHeader) +:+ "}")).
Proof. unfold codeColumn. generalize (Itoa pos). intros s. vm_compute. exact eq_refl. Qed.

(** The [k]-th pair of dimension tokens of the header row sits behind the
    observation token and the two marking tokens; the descriptors emitted
    for it sit at the same two positions of the result. *)
Lemma populateColumns_pair (dims : list CodeList) (unit csvURL : string) (out : output)
  (k : nat) (codeHeader dimHeader : string) :
  Split headerRow "," !! (3 + 2 * k)%nat = Some codeHeader ->
  Split headerRow "," !! (3 + 2 * k + 1)%nat = Some dimHeader ->
  exists cols : list Column,
    populateColumns dims unit csvURL out = (Ok cols, out)
    /\ cols !! (3 + 2 * k)%nat
       = Some (codeColumn codeHeader (findDim dims (ToLower dimHeader) zeroCodeList)
                 csvURL (3 + 2 * Z.of_nat k))
    /\ cols !! (3 + 2 * k + 1)%nat
       = Some (labelColumn (ToLower dimHeader)
                 (findDim dims (ToLower dimHeader) zeroCodeList)
                 csvURL (3 + 2 * Z.of_nat k + 1)).
Proof.
  rewrite headerRow_tokens. intros Hcode Hdim.
  assert (Hk : (k < 6)%nat).
  { apply lookup_lt_Some in Hcode. cbn [length] in Hcode. lia. }
  eexists. split; [apply populateColumns_eq|].
  do 6 (destruct k as [|k];
        [ cbn in Hcode, Hdim; injection Hcode as <-; injection Hdim as <-;
          split; exact eq_refl |]).
  lia.
Qed.

(** C1: for the fixed header row [populateColumns] returns, whatever the
    dimensions, the unit and the CSV URL are, exactly 15 descriptors: the
    observation column, 2 data-marking columns, then 6 pairs of a code
    column and a label column, in that order; their "@id" attributes are
    the CSV URL followed by "#col=0", "#col=1", ..., "#col=14", in order
    and without a gap. *)
Theorem populateColumns_fixed_layout
  (dims : list CodeList) (unit csvURL : string) (out : output) :
  exists cols : list Column,
    populateColumns dims unit csvURL out = (Ok cols, out)
    /\ length cols = 15%nat
    /\ columnRole <$> cols
       = [ Some Observation; Some Marking; Some Marking;
           Some DimensionCode; Some DimensionLabel;
           Some DimensionCode; Some DimensionLabel;
           Some DimensionCode; Some DimensionLabel;
           Some DimensionCode; Some DimensionLabel;
           Some DimensionCode; Some DimensionLabel;
           Some DimensionCode; Some DimensionLabel ]
    /\ (fun c : Column => c !! "@id") <$> cols
       = [ Some (VString (csvURL +:+ "#col=0"));
           Some (VString (csvURL +:+ "#col=1"));
           Some (VString (csvURL +:+ "#col=2"));
           Some (VString (csvURL +:+ "#col=3"));
           Some (VString (csvURL +:+ "#col=4"));
           Some (VString (csvURL +:+ "#col=5"));
           Some (VString (csvURL +:+ "#col=6"));
           Some (VString (csvURL +:+ "#col=7"));
           Some (VString (csvURL +:+ "#col=8"));
           Some (VString (csvURL +:+ "#col=9"));
           Some (VString (csvURL +:+ "#col=10"));
           Some (VString (csvURL +:+ "#col=11"));
           Some (VString (csvURL +:+ "#col=12"));
           Some (VString (csvURL +:+ "#col=13"));
           Some (VString (csvURL +:+ "#col=14")) ].
Proof.
  eexists. split; [apply populateColumns_eq|].
  unfold dimColumns. cbn [app length fmap list_fmap].
  split; [reflexivity|]. split.
  - rewrite columnRole_observation, !columnRole_marking, !columnRole_code,
      !columnRole_label. reflexivity.
  - rewrite observationColumn_id, !markingColumn_id, !codeColumn_id, !labelColumn_id.
    reflexivity.
Qed.

(** The first entry with a property, when there is one. *)
Lemma Exists_first_named (name : string) (dims : list CodeList) :
  Exists (fun d => CodeList_Name d = name) dims ->
  exists pre d post,
    dims = pre ++ d :: post
    /\ Forall (fun e => CodeList_Name e <> name) pre
    /\ CodeList_Name d = name.
Proof.
  induction dims as [|e dims IH]; intros Hex; [inversion Hex|].
  destruct (String.eqb_spec (CodeList_Name e) name) as [Heq|Hne].
  - exists [], e, dims. split; [reflexivity|]. split; [constructor|exact Heq].
  - inversion Hex as [? ? Hhd|? ? Htl]; subst; [contradiction|].
    destruct (IH Htl) as (pre & d & post & -> & Hpre & Hd).
    exists (e :: pre), d, post. split; [reflexivity|].
    split; [constructor; assumption|exact Hd].
Qed.

(** C2, as amended: for the [k]-th pair of dimension tokens of the header
    row and any dimension list, [populateColumns] returns normally. If the
    list contains an entry whose name equals the lowercased dimension token,
    the "titles" and "description" of the label column are the label and
    the description of the first such entry of the list, and of no later
    one; if no entry matches, they are the empty string and the "valueURL"
    of the code column is built from an empty HRef. *)
Theorem populateColumns_label_of_first_named_dimension
  (dims : list CodeList) (unit csvURL : string) (out : output)
  (k : nat) (codeHeader dimHeader : string) :
  Split headerRow "," !! (3 + 2 * k)%nat = Some codeHeader ->
  Split headerRow "," !! (3 + 2 * k + 1)%nat = Some dimHeader ->
  exists (cols : list Column) (codeCol labelCol : Column),
    populateColumns dims unit csvURL out = (Ok cols, out)
    /\ cols !! (3 + 2 * k)%nat = Some codeCol
    /\ cols !! (3 + 2 * k + 1)%nat = Some labelCol
    /\ (Exists (fun d => CodeList_Name d = ToLower dimHeader) dims ->
        exists pre d post,
          dims = pre ++ d :: post
          /\ Forall (fun e => CodeList_Name e <> ToLower dimHeader) pre
          /\ CodeList_Name d = ToLower dimHeader
          /\ labelCol !! "titles" = Some (VString (CodeList_Label d))
          /\ labelCol !! "description" = Some (VString (CodeList_Description d)))
    /\ (forall pre d post,
          dims = pre ++ d :: post ->
          Forall (fun e => CodeList_Name e <> ToLower dimHeader) pre ->
          CodeList_Name d = ToLower dimHeader ->
          labelCol !! "titles" = Some (VString (CodeList_Label d))
          /\ labelCol !! "description" = Some (VString (CodeList_Description d)))
    /\ (Forall (fun d => CodeList_Name d <> ToLower dimHeader) dims ->
        labelCol !! "titles" = Some (VString "")
        /\ labelCol !! "description" = Some (VString "")
        /\ codeCol !! "valueURL" = Some (VString ("/codes/{" +:+ codeHeader +:+ "}"))).
Proof.
  intros Hcode Hdim.
  destruct (populateColumns_pair dims unit csvURL out k codeHeader dimHeader Hcode Hdim)
    as (cols & Hrun & Hc & Hl).
  exists cols. eexists. eexists.
  split; [exact Hrun|]. split; [exact Hc|]. split; [exact Hl|].
  rewrite labelColumn_titles, labelColumn_description, codeColumn_valueURL.
  assert (Hfirst : forall pre d post,
             dims = pre ++ d :: post ->
             Forall (fun e => CodeList_Name e <> ToLower dimHeader) pre ->
             CodeList_Name d = ToLower dimHeader ->
             findDim dims (ToLower dimHeader) zeroCodeList = d).
  { intros pre d post -> Hpre Hd. apply findDim_first; assumption. }
  split; [|split].
  - intros Hex.
    destruct (Exists_first_named (ToLower dimHeader) dims Hex)
      as (pre & d & post & Hdims & Hpre & Hd).
    exists pre, d, post. rewrite (Hfirst pre d post Hdims Hpre Hd). auto.
  - intros pre d post Hdims Hpre Hd. rewrite (Hfirst pre d post Hdims Hpre Hd). auto.
  - intros Hnone.
    rewrite (findDim_none (ToLower dimHeader) zeroCodeList dims Hnone).
    auto.
Qed.

Lemma populateColumns_label_of_first_named_dimension_witness :
  attribute (populateColumns [ageDimension; timeDimension; laterTimeDimension]
               "hours" sampleCSV noOutput) 4 "titles"
  = Some (VString "Time")
  /\ attribute (populateColumns [ageDimension; timeDimension; laterTimeDimension]
                 "hours" sampleCSV noOutput) 4 "description"
     = Some (VString "The period the figures cover").
Proof.
  destruct (populateColumns_label_of_first_named_dimension
              [ageDimension; timeDimension; laterTimeDimension]
              "hours" sampleCSV noOutput 0 "Time_codelist" "Time"
              eq_refl eq_refl)
    as (cols & codeCol & labelCol & Hrun & _ & Hl & _ & Hfirst & _).
  destruct (Hfirst [ageDimension] timeDimension [laterTimeDimension] eq_refl)
    as [Htitles Hdescription].
  - constructor; [discriminate | constructor].
  - exact eq_refl.
  - unfold attribute. rewrite Hrun. cbn [fst].
    change (cols !! 4%nat) with (cols !! (3 + 2 * 0 + 1)%nat).
    rewrite Hl. split; [exact Htitles | exact Hdescription].
Defined.

(** C2 as stated fails on a list with two entries under one name: the list
    contains [laterTimeDimension], whose name equals the lowercased token
    "time", and the label column for "Time" carries the label and the
    description of [timeDimension], the entry before it, not those of
    [laterTimeDimension]. *)
Lemma populateColumns_label_not_of_every_named_dimension :
  let dims := [timeDimension; laterTimeDimension] in
  let run := populateColumns dims "hours" sampleCSV noOutput in
  laterTimeDimension ∈ dims
  /\ CodeList_Name laterTimeDimension = ToLower "Time"
  /\ attribute run 4 "titles" = Some (VString "Time")
  /\ attribute run 4 "titles" <> Some (VString (CodeList_Label laterTimeDimension))
  /\ attribute run 4 "description" = Some (VString "The period the figures cover")
  /\ attribute run 4 "description"
     <> Some (VString (CodeList_Description laterTimeDimension)).
Proof.
  cbv zeta. unfold attribute. rewrite populateColumns_eq.
  split; [right; left|].
  repeat split; try (vm_compute; exact eq_refl); vm_compute; discriminate.
Qed.

(** C3, as amended: the lookup lowercases the header token only and compares
    it with each stored name for equality. The code and label columns of a
    pair are built from the first dimension whose stored name equals the
    lowercased token, and from the zero-valued dimension when no stored name
    equals it, names that match up to letter case included. *)
Theorem populateColumns_lookup_exact
  (dims : list CodeList) (unit csvURL : string) (out : output)
  (k : nat) (codeHeader dimHeader : string) :
  Split headerRow "," !! (3 + 2 * k)%nat = Some codeHeader ->
  Split headerRow "," !! (3 + 2 * k + 1)%nat = Some dimHeader ->
  exists (cols : list Column) (dim : CodeList),
    populateColumns dims unit csvURL out = (Ok cols, out)
    /\ cols !! (3 + 2 * k)%nat
       = Some (codeColumn codeHeader dim csvURL (3 + 2 * Z.of_nat k))
    /\ cols !! (3 + 2 * k + 1)%nat
       = Some (labelColumn (ToLower dimHeader) dim csvURL (3 + 2 * Z.of_nat k + 1))
    /\ (forall pre d post,
          dims = pre ++ d :: post ->
          Forall (fun e => CodeList_Name e <> ToLower dimHeader) pre ->
          CodeList_Name d = ToLower dimHeader ->
          dim = d)
    /\ (Forall (fun d => CodeList_Name d <> ToLower dimHeader) dims ->
        dim = zeroCodeList).
Proof.
  intros Hcode Hdim.
  destruct (populateColumns_pair dims unit csvURL out k codeHeader dimHeader Hcode Hdim)
    as (cols & Hrun & Hc & Hl).
  exists cols, (findDim dims (ToLower dimHeader) zeroCodeList).
  repeat split; try assumption.
  - intros pre d post -> Hpre Hd. apply findDim_first; assumption.
  - apply findDim_none.
Qed.

Lemma populateColumns_lookup_exact_witness :
  exists (cols : list Column) (dim : CodeList),
    populateColumns [upperCaseTimeDimension; timeDimension] "hours" sampleCSV noOutput
    = (Ok cols, noOutput)
    /\ cols !! 3%nat = Some (codeColumn "Time_codelist" dim sampleCSV 3)
    /\ cols !! 4%nat = Some (labelColumn "time" dim sampleCSV 4)
    /\ dim = timeDimension.
Proof.
  destruct (populateColumns_lookup_exact
              [upperCaseTimeDimension; timeDimension] "hours" sampleCSV noOutput
              0 "Time_codelist" "Time" eq_refl eq_refl)
    as (cols & dim & Hrun & Hc & Hl & Hfirst & _).
  exists cols, dim.
  split; [exact Hrun|]. split; [exact Hc|]. split; [exact Hl|].
  apply (Hfirst [upperCaseTimeDimension] timeDimension [] eq_refl).
  - constructor; [discriminate | constructor].
  - exact eq_refl.
Defined.

(** C3 as stated fails: a dimension stored as "TIME" differs from the header
    token "Time" in letter case only, and it is not matched: the label
    column for "Time" has empty "titles" and "description" and the code
    column a "valueURL" without the dimension's HRef. *)
Lemma populateColumns_lookup_case_sensitive :
  let d := upperCaseTimeDimension in
  let run := populateColumns [d] "hours" sampleCSV noOutput in
  ToLower (CodeList_Name d) = ToLower "Time"
  /\ attribute run 4 "titles" = Some (VString "")
  /\ attribute run 4 "titles" <> Some (VString (CodeList_Label d))
  /\ attribute run 4 "description" = Some (VString "")
  /\ attribute run 3 "valueURL" = Some (VString "/codes/{Time_codelist}").
Proof.
  cbv zeta. unfold attribute. rewrite populateColumns_eq.
  repeat split; try (vm_compute; exact eq_refl).
  vm_compute. discriminate.
Qed.

(** ** The top-level projection *)

Section AssignTopLevel.

Context {ContactDetails : Type}.

Implicit Type m : Metadata ContactDetails.

(** With a first contact at hand the literal is built and the call returns. *)
Lemma assignTopLevel_cons m (c : ContactDetails) (rest : list ContactDetails) :
  Metadata_Contacts m = c :: rest ->
  exists csv, assignTopLevel (Some m) = Ok csv
    /\ CSVW_Contact csv = c
    /\ CSVW_Context csv = "http://www.w3.org/ns/csvw"
    /\ CSVW_URL csv = DownloadObject_HRef (DownloadList_CSV (Metadata_Downloads m))
    /\ CSVW_Title csv = Metadata_Title m
    /\ CSVW_Description csv = Metadata_Description m
    /\ CSVW_Issued csv = Metadata_ReleaseDate m
    /\ CSVW_Theme csv = Metadata_Theme m
    /\ CSVW_License csv = Metadata_License m
    /\ CSVW_Frequency csv = Metadata_ReleaseFrequency m
    /\ CSVW_Creator csv
       = {| Creator_Name := Publisher_Name (Metadata_Publisher m);
            Creator_Type := Publisher_Type (Metadata_Publisher m);
            Creator_ID := Publisher_HRef (Metadata_Publisher m) |}.
Proof.
  intros Hcontacts. unfold assignTopLevel. cbn [deref Go.bind].
  rewrite Hcontacts, index_cons_0. cbn [Go.bind].
  eexists. split; [reflexivity|]. cbn. repeat split.
Qed.

(** With no contact the index expression panics. *)
Lemma assignTopLevel_nil m :
  Metadata_Contacts m = [] -> assignTopLevel (Some m) = Panic indexOutOfRange.
Proof.
  intros Hcontacts. unfold assignTopLevel. cbn [deref Go.bind].
  rewrite Hcontacts, index_nil. reflexivity.
Qed.

(** A [nil] document panics at the first field the literal reads. *)
Lemma assignTopLevel_nil_pointer :
  assignTopLevel (@None (Metadata ContactDetails)) = Panic nilDereference.
Proof. reflexivity. Qed.

(** C5: for a metadata document with a non-empty contacts list,
    [assignTopLevel] returns a CSVW document whose URL, title, description,
    issue date, theme, license and frequency are the metadata's CSV download
    HRef, title, description, release date, theme, license and release
    frequency, unchanged; whose creator is made of the publisher's name,
    type and HRef; and whose context is "http://www.w3.org/ns/csvw". *)
Theorem assignTopLevel_copies_fields m :
  Metadata_Contacts m <> [] ->
  exists csv, assignTopLevel (Some m) = Ok csv
    /\ CSVW_URL csv = DownloadObject_HRef (DownloadList_CSV (Metadata_Downloads m))
    /\ CSVW_Title csv = Metadata_Title m
    /\ CSVW_Description csv = Metadata_Description m
    /\ CSVW_Issued csv = Metadata_ReleaseDate m
    /\ CSVW_Theme csv = Metadata_Theme m
    /\ CSVW_License csv = Metadata_License m
    /\ CSVW_Frequency csv = Metadata_ReleaseFrequency m
    /\ Creator_Name (CSVW_Creator csv) = Publisher_Name (Metadata_Publisher m)
    /\ Creator_Type (CSVW_Creator csv) = Publisher_Type (Metadata_Publisher m)
    /\ Creator_ID (CSVW_Creator csv) = Publisher_HRef (Metadata_Publisher m)
    /\ CSVW_Context csv = "http://www.w3.org/ns/csvw".
Proof.
  intros Hne. destruct (Metadata_Contacts m) as [|c rest] eqn:Hcontacts; [congruence|].
  destruct (assignTopLevel_cons m c rest Hcontacts)
    as (csv & Hrun & _ & Hctx & Hurl & Htitle & Hdesc & Hiss & Hth & Hlic & Hfreq & Hcr).
  exists csv. rewrite Hcr. cbn [Creator_Name Creator_Type Creator_ID].
  repeat split; assumption.
Qed.

(** C6: [assignTopLevel] panics exactly when the contacts list of the
    document is empty, and otherwise the contact of the CSVW document is
    the first element of that list. *)
Theorem assignTopLevel_contact m :
  (panics (assignTopLevel (Some m)) <-> Metadata_Contacts m = [])
  /\ (forall c rest, Metadata_Contacts m = c :: rest ->
        exists csv, assignTopLevel (Some m) = Ok csv /\ CSVW_Contact csv = c).
Proof.
  split; [split|].
  - intros [msg Hpanic].
    destruct (Metadata_Contacts m) as [|c rest] eqn:Hcontacts; [reflexivity|].
    destruct (assignTopLevel_cons m c rest Hcontacts) as (csv & Hrun & _).
    congruence.
  - intros Hcontacts. exists indexOutOfRange. apply assignTopLevel_nil, Hcontacts.
  - intros c rest Hcontacts.
    destruct (assignTopLevel_cons m c rest Hcontacts) as (csv & Hrun & Hc & _).
    exists csv. split; assumption.
Qed.

End AssignTopLevel.

Lemma assignTopLevel_copies_fields_witness :
  exists csv, assignTopLevel (Some sampleMetadata) = Ok csv
    /\ CSVW_URL csv = sampleCSV
    /\ CSVW_Title csv = "ASHE table 7"
    /\ CSVW_Frequency csv = "Annual"
    /\ Creator_Name (CSVW_Creator csv) = "Office for National Statistics".
Proof.
  destruct (assignTopLevel_copies_fields sampleMetadata)
    as (csv & Hrun & Hurl & Htitle & _ & _ & _ & _ & Hfreq & Hname & _).
  - discriminate.
  - exists csv. repeat split; assumption.
Defined.

Lemma assignTopLevel_contact_witness :
  (exists csv, assignTopLevel (Some sampleMetadata) = Ok csv
     /\ CSVW_Contact csv = "statistician@example.org")
  /\ panics (assignTopLevel (Some noContactMetadata)).
Proof.
  split.
  - apply (proj2 (assignTopLevel_contact sampleMetadata)
             "statistician@example.org" ["press@example.org"] eq_refl).
  - apply (proj1 (assignTopLevel_contact noContactMetadata)). exact eq_refl.
Defined.

(** ** The fetch *)

Section GetMetadata.

Context {ContactDetails : Type}.

Variables (w : World ContactDetails) (url : string) (out : output).

(** A request that cannot be built ends the process. *)
Lemma getMetadata_request_failure (err : error) :
  NewRequest w "GET" url = inl err ->
  getMetadata w url out
  = (Exit 1, mkOutput (stdout out) (stderr out ++ ["NewRequest: " +:+ err])).
Proof. intros Hreq. unfold getMetadata. rewrite Hreq. reflexivity. Qed.

(** A request that cannot be sent or answered ends the process. *)
Lemma getMetadata_transport_failure (req : Request) (err : error) :
  NewRequest w "GET" url = inr req ->
  Do w req = inl err ->
  getMetadata w url out
  = (Exit 1, mkOutput (stdout out) (stderr out ++ ["Do: " +:+ err])).
Proof. intros Hreq Hdo. unfold getMetadata. rewrite Hreq, Hdo. reflexivity. Qed.

(** A body that cannot be read to its end gives the [nil] document: nothing
    is written and the process goes on. *)
Lemma getMetadata_read_failure (req : Request) (resp : Response) (err : error) :
  NewRequest w "GET" url = inr req ->
  Do w req = inr resp ->
  Body_err (Response_Body resp) = Some err ->
  getMetadata w url out = (Ok None, out).
Proof.
  intros Hreq Hdo Hread. unfold getMetadata, ReadAll.
  rewrite Hreq, Hdo, Hread. reflexivity.
Qed.

(** A body that decodes gives the decoded document. *)
Lemma getMetadata_decoded (req : Request) (resp : Response)
  (md : Metadata ContactDetails) :
  NewRequest w "GET" url = inr req ->
  Do w req = inr resp ->
  Body_err (Response_Body resp) = None ->
  Unmarshal w (Body_data (Response_Body resp)) zeroMetadata = (md, None) ->
  getMetadata w url out = (Ok (Some md), out).
Proof.
  intros Hreq Hdo Hread Hdec. unfold getMetadata, ReadAll.
  rewrite Hreq, Hdo, Hread, Hdec. reflexivity.
Qed.

(** A body that does not decode is logged, and the document is returned as
    decoding left it. *)
Lemma getMetadata_decode_failure (req : Request) (resp : Response)
  (md : Metadata ContactDetails) (err : error) :
  NewRequest w "GET" url = inr req ->
  Do w req = inr resp ->
  Body_err (Response_Body resp) = None ->
  Unmarshal w (Body_data (Response_Body resp)) zeroMetadata = (md, Some err) ->
  getMetadata w url out
  = (Ok (Some md), mkOutput (stdout out) (stderr out ++ [err])).
Proof.
  intros Hreq Hdo Hread Hdec. unfold getMetadata, ReadAll.
  rewrite Hreq, Hdo, Hread, Hdec. reflexivity.
Qed.

(** C7, as amended: a request that cannot be built and a request that
    cannot be sent are fatal, the failure is logged and the process exits
    with status 1; once the body has been read, a JSON decode failure is
    not fatal: it is logged and [getMetadata] returns the document as the
    decoder left it, which is the zero-valued document when the decoder
    stored nothing, and the caller gets no other sign of the failure. *)
Theorem getMetadata_failure_policy :
  (forall err, NewRequest w "GET" url = inl err ->
     getMetadata w url out
     = (Exit 1, mkOutput (stdout out) (stderr out ++ ["NewRequest: " +:+ err])))
  /\ (forall req err, NewRequest w "GET" url = inr req -> Do w req = inl err ->
       getMetadata w url out
       = (Exit 1, mkOutput (stdout out) (stderr out ++ ["Do: " +:+ err])))
  /\ (forall req resp b md err,
       NewRequest w "GET" url = inr req -> Do w req = inr resp ->
       ReadAll (Response_Body resp) = (b, None) ->
       Unmarshal w b zeroMetadata = (md, Some err) ->
       getMetadata w url out
       = (Ok (Some md), mkOutput (stdout out) (stderr out ++ [err])))
  /\ (forall req resp b err,
       NewRequest w "GET" url = inr req -> Do w req = inr resp ->
       ReadAll (Response_Body resp) = (b, None) ->
       Unmarshal w b zeroMetadata = (zeroMetadata, Some err) ->
       getMetadata w url out
       = (Ok (Some zeroMetadata), mkOutput (stdout out) (stderr out ++ [err]))).
Proof.
  assert (Hdecode : forall req resp b md err,
             NewRequest w "GET" url = inr req -> Do w req = inr resp ->
             ReadAll (Response_Body resp) = (b, None) ->
             Unmarshal w b zeroMetadata = (md, Some err) ->
             getMetadata w url out
             = (Ok (Some md), mkOutput (stdout out) (stderr out ++ [err]))).
  { intros req resp b md err Hreq Hdo Hread Hdec.
    unfold ReadAll in Hread. injection Hread as <- Hnone.
    exact (getMetadata_decode_failure req resp md err Hreq Hdo Hnone Hdec). }
  split; [exact getMetadata_request_failure|].
  split; [exact getMetadata_transport_failure|].
  split; [exact Hdecode|].
  intros req resp b err. apply Hdecode.
Qed.

End GetMetadata.

Lemma getMetadata_failure_policy_witness :
  getMetadata syntaxErrorWorld metadataURL noOutput
  = (Ok (Some zeroMetadata),
     mkOutput [] ["invalid character '<' looking for beginning of value"]).
Proof.
  apply (proj2 (proj2 (proj2
           (getMetadata_failure_policy syntaxErrorWorld metadataURL noOutput)))
           (mkRequest "GET" metadataURL)
           (mkResponse (mkBody "<html>Bad Gateway</html>" None))
           "<html>Bad Gateway</html>"
           "invalid character '<' looking for beginning of value");
    exact eq_refl.
Defined.

(** C7 as stated fails on two worlds. When the connection drops while the
    body is read, [getMetadata] neither ends the process nor returns a
    document: it returns [nil] and logs nothing. When the body is a JSON
    object with one value of the wrong type, the failure is logged and the
    document returned is not the zero-valued one: it holds what was
    decoded. *)
Lemma getMetadata_not_two_tier :
  getMetadata readFailureWorld metadataURL noOutput = (Ok None, noOutput)
  /\ getMetadata typeMismatchWorld metadataURL noOutput
     = (Ok (Some titledMetadata),
        mkOutput []
          ["json: cannot unmarshal number into Go struct field Metadata.description of type string"])
  /\ titledMetadata <> zeroMetadata.
Proof.
  split; [exact eq_refl|]. split; [exact eq_refl|]. discriminate.
Qed.

(** ** The whole program *)

Section Main.

Context {ContactDetails : Type}.

(** C10: when the request for the metadata succeeds and reading the body
    fails, [getMetadata] returns [nil], without ending the process and
    without a zero-valued document; [assignTopLevel] then dereferences
    [nil], so the program panics there, having written nothing. *)
Theorem read_failure_crashes_in_assignTopLevel
  (w : World ContactDetails) (out : output)
  (req : Request) (resp : Response) (err : error) :
  NewRequest w "GET" metadataURL = inr req ->
  Do w req = inr resp ->
  Body_err (Response_Body resp) = Some err ->
  getMetadata w metadataURL out = (Ok None, out)
  /\ assignTopLevel (@None (Metadata ContactDetails)) = Panic nilDereference
  /\ main w out = (Panic nilDereference, out).
Proof.
  intros Hreq Hdo Hread.
  pose proof (getMetadata_read_failure w metadataURL out req resp err Hreq Hdo Hread)
    as Hfetch.
  split; [exact Hfetch|]. split; [reflexivity|].
  unfold main, mbind. rewrite Hfetch. reflexivity.
Qed.

End Main.

Lemma read_failure_crashes_in_assignTopLevel_witness :
  getMetadata readFailureWorld metadataURL noOutput = (Ok None, noOutput)
  /\ assignTopLevel (@None (Metadata string)) = Panic nilDereference
  /\ main readFailureWorld noOutput = (Panic nilDereference, noOutput).
Proof.
  apply (read_failure_crashes_in_assignTopLevel readFailureWorld noOutput
           (mkRequest "GET" metadataURL)
           (mkResponse (mkBody "{" (Some "unexpected EOF")))
           "unexpected EOF");
    exact eq_refl.
Defined.

(** On a world where everything succeeds the program prints what
    [json.Marshal] gives for the finished document, and nothing else. *)
Lemma main_sampleWorld :
  main sampleWorld noOutput = (Ok tt, mkOutput ["{...}"] []).
Proof.
  unfold main, mbind.
  replace (getMetadata sampleWorld metadataURL noOutput)
    with (Ok (Some sampleMetadata), noOutput) by exact eq_refl.
  cbn [assignTopLevel deref Go.bind lift sampleMetadata Metadata_Contacts].
  rewrite index_cons_0. cbn [Go.bind].
  rewrite populateColumns_eq. reflexivity.
Qed.

(** ** Marshalling with extra keys *)

Section MarshalProperties.

Context {ContactDetails Any : Type}.

Implicit Type enc : Encoder ContactDetails Any.

(** The loop stops at the first entry whose key the map holds, however many
    entries were added before it. *)
Lemma rangeUnknown_collision enc (entries : list (string * string))
  (structAsMap : gmap string Any) (k : string) :
  k ∈ entries.*1 ->
  is_Some (structAsMap !! k) ->
  rangeUnknown enc structAsMap entries = Panic "key collision".
Proof.
  revert structAsMap.
  induction entries as [|[k' v'] entries IH]; intros structAsMap Hin Hheld.
  - inversion Hin.
  - cbn [rangeUnknown]. destruct (structAsMap !! k') as [held|] eqn:Hk'; [reflexivity|].
    apply IH.
    + cbn in Hin. apply elem_of_cons in Hin as [->|Hin]; [|exact Hin].
      rewrite Hk' in Hheld. destruct Hheld as [? ?]. discriminate.
    + destruct (decide (k' = k)) as [->|Hne].
      * rewrite lookup_insert_eq. eauto.
      * rewrite lookup_insert_ne by exact Hne. exact Hheld.
Qed.

(** With distinct keys, none of them held by the map, every entry is added. *)
Lemma rangeUnknown_disjoint enc (entries : list (string * string))
  (structAsMap : gmap string Any) :
  NoDup entries.*1 ->
  (forall k, k ∈ entries.*1 -> structAsMap !! k = None) ->
  rangeUnknown enc structAsMap entries
  = Ok (structAsMap ∪ list_to_map (prod_map id (boxString enc) <$> entries)).
Proof.
  revert structAsMap.
  induction entries as [|[k v] entries IH]; intros structAsMap Hnodup Hfree.
  - cbn. rewrite (right_id_L ∅ (∪)). reflexivity.
  - cbn [rangeUnknown]. rewrite (Hfree k) by (cbn; left).
    cbn in Hnodup. apply NoDup_cons in Hnodup as [Hk Hnodup].
    rewrite IH.
    + csimpl. rewrite <- insert_union_l.
      rewrite insert_union_r by (apply Hfree; cbn; left). reflexivity.
    + exact Hnodup.
    + intros k' Hk'. rewrite lookup_insert_ne.
      * apply Hfree. cbn. right. exact Hk'.
      * intros ->. contradiction.
Qed.

Lemma RangeOrder_keys enc (ourMap : Unknown) (k : string) :
  RangeOrder enc ourMap ≡ₚ map_to_list ourMap ->
  k ∈ (RangeOrder enc ourMap).*1 <-> is_Some (ourMap !! k).
Proof.
  intros Hperm. rewrite Hperm. rewrite list_elem_of_fmap. split.
  - intros ([k' v] & -> & Hin). apply elem_of_map_to_list in Hin. eauto.
  - intros [v Hv]. exists (k, v). split; [reflexivity|].
    apply elem_of_map_to_list. exact Hv.
Qed.

(** X10: when the extra map and the struct map share a key, [marshal]
    panics with "key collision", whatever the order in which the extra
    entries are visited and however many were added before the shared one. *)
Theorem marshal_key_collision enc
  (st : option (CSVW ContactDetails)) (ourMap : Unknown)
  (structAsMap : gmap string Any) (k : string) :
  RangeOrder enc ourMap ≡ₚ map_to_list ourMap ->
  StructsMap enc st = Ok structAsMap ->
  is_Some (ourMap !! k) ->
  is_Some (structAsMap !! k) ->
  marshal enc st ourMap = Panic "key collision".
Proof.
  intros Hperm Hmap Hours Hheld. unfold marshal. rewrite Hmap. cbn [Go.bind].
  rewrite (rangeUnknown_collision enc _ structAsMap k); [reflexivity| |exact Hheld].
  apply (RangeOrder_keys enc ourMap k Hperm). exact Hours.
Qed.

(** X11: when no key of the extra map is a key of the struct map, [marshal]
    hands [json.Marshal] the struct map extended with every extra entry,
    the struct's own entries unchanged, and returns its bytes or panics
    with its error. *)
Theorem marshal_disjoint enc
  (st : option (CSVW ContactDetails)) (ourMap : Unknown)
  (structAsMap : gmap string Any) :
  RangeOrder enc ourMap ≡ₚ map_to_list ourMap ->
  StructsMap enc st = Ok structAsMap ->
  (forall k, is_Some (ourMap !! k) -> structAsMap !! k = None) ->
  marshal enc st ourMap
  = match MarshalMap enc (structAsMap ∪ (boxString enc <$> ourMap)) with
    | inl err => Panic err
    | inr bytes => Ok bytes
    end.
Proof.
  intros Hperm Hmap Hfree. unfold marshal. rewrite Hmap. cbn [Go.bind].
  rewrite rangeUnknown_disjoint.
  - cbn [Go.bind]. rewrite list_to_map_fmap.
    rewrite <- (list_to_map_flip ourMap (RangeOrder enc ourMap)) by (symmetry; exact Hperm).
    reflexivity.
  - rewrite Hperm. apply NoDup_fst_map_to_list.
  - intros k Hk. apply Hfree. apply (RangeOrder_keys enc ourMap k Hperm). exact Hk.
Qed.



(** What [marshal] does, told without the order of the entries. *)
Lemma marshal_by_cases enc (st : option (CSVW ContactDetails)) (ourMap : Unknown) :
  RangeOrder enc ourMap ≡ₚ map_to_list ourMap ->
  marshal enc st ourMap
  = Go.bind (StructsMap enc st) (fun structAsMap =>
      if decide (map_Forall (fun k _ => structAsMap !! k = None) ourMap)
      then match MarshalMap enc (structAsMap ∪ (boxString enc <$> ourMap)) with
           | inl err => Panic err
           | inr bytes => Ok bytes
           end
      else Panic "key collision").
Proof.
  intros Hperm. unfold marshal.
  destruct (StructsMap enc st) as [structAsMap|msg|code]; cbn [Go.bind]; try reflexivity.
  destruct (decide (map_Forall (fun k _ => structAsMap !! k = None) ourMap))
    as [Hfree|Hheld].
  - rewrite rangeUnknown_disjoint.
    + cbn [Go.bind]. rewrite list_to_map_fmap.
      rewrite <- (list_to_map_flip ourMap (RangeOrder enc ourMap))
        by (symmetry; exact Hperm).
      reflexivity.
    + rewrite Hperm. apply NoDup_fst_map_to_list.
    + intros k Hk. apply (RangeOrder_keys enc ourMap k Hperm) in Hk as [v Hv].
      exact (Hfree k v Hv).
  - apply map_not_Forall in Hheld; [|apply _].
    destruct Hheld as (k & v & Hv & Hk).
    rewrite (rangeUnknown_collision enc _ structAsMap k); [reflexivity| |].
    + apply (RangeOrder_keys enc ourMap k Hperm). eauto.
    + destruct (structAsMap !! k) as [held|]; [eauto|]. contradiction.
Qed.

(** X12: the order in which [range] yields the entries of the extra map
    does not show in the outcome of [marshal]: two runs that differ in that
    order only end in the same bytes or in the same panic. *)
Theorem marshal_order_independent enc enc'
  (st : option (CSVW ContactDetails)) (ourMap : Unknown) :
  boxString enc' = boxString enc ->
  StructsMap enc' = StructsMap enc ->
  MarshalMap enc' = MarshalMap enc ->
  RangeOrder enc ourMap ≡ₚ map_to_list ourMap ->
  RangeOrder enc' ourMap ≡ₚ map_to_list ourMap ->
  marshal enc' st ourMap = marshal enc st ourMap.
Proof.
  intros Hbox Hstructs Hjson Hperm Hperm'.
  rewrite (marshal_by_cases enc st ourMap Hperm).
  rewrite (marshal_by_cases enc' st ourMap Hperm').
  rewrite Hbox, Hstructs, Hjson. reflexivity.
Qed.

End MarshalProperties.


Lemma marshal_key_collision_witness :
  marshal sampleEncoder (Some sampleCSVW)
    (<["Title" := "Override"]> {["note" := "provisional"]})
  = Panic "key collision".
Proof.
  apply (marshal_key_collision sampleEncoder (Some sampleCSVW) _
           (<["Title" := "ASHE table 7"]> {["URL" := sampleCSV]}) "Title").
  - apply reverse_Permutation.
  - exact eq_refl.
  - exists "Override". exact eq_refl.
  - exists "ASHE table 7". exact eq_refl.
Defined.

Lemma marshal_disjoint_witness :
  marshal sampleEncoder (Some sampleCSVW) {["note" := "provisional"]}
  = Ok "URL;note;Title;".
Proof.
  rewrite (marshal_disjoint sampleEncoder (Some sampleCSVW) {["note" := "provisional"]}
             (<["Title" := "ASHE table 7"]> {["URL" := sampleCSV]})).
  - exact eq_refl.
  - apply reverse_Permutation.
  - exact eq_refl.
  - intros k [v Hv]. apply lookup_singleton_Some in Hv as [<- _]. exact eq_refl.
Defined.

Lemma marshal_order_independent_witness :
  marshal forwardEncoder (Some sampleCSVW)
    (<["note" := "provisional"]> {["source" := "ONS"]})
  = marshal sampleEncoder (Some sampleCSVW)
      (<["note" := "provisional"]> {["source" := "ONS"]}).
Proof.
  apply (marshal_order_independent sampleEncoder forwardEncoder);
    try exact eq_refl.
  - apply reverse_Permutation.
  - reflexivity.
Defined.

(** ** More on the fetch *)

Section GetMetadataOutcomes.

Context {ContactDetails : Type}.

Variables (w : World ContactDetails) (url : string) (out : output).

(** The three ways [getMetadata] ends, and what each one leaves behind. *)
Lemma getMetadata_cases :
  (exists line, getMetadata w url out
                = (Exit 1, mkOutput (stdout out) (stderr out ++ [line])))
  \/ getMetadata w url out = (Ok None, out)
  \/ (exists md, getMetadata w url out = (Ok (Some md), out))
  \/ (exists md line, getMetadata w url out
                      = (Ok (Some md), mkOutput (stdout out) (stderr out ++ [line]))).
Proof.
  unfold getMetadata, ReadAll.
  destruct (NewRequest w "GET" url) as [err|req]; [left; eauto|].
  destruct (Do w req) as [err|resp]; [left; eauto|].
  destruct (Body_err (Response_Body resp)) as [err|]; [right; left; reflexivity|].
  destruct (Unmarshal w (Body_data (Response_Body resp)) zeroMetadata) as [md [err|]].
  - right; right; right. exists md, err. reflexivity.
  - right; right; left. exists md. destruct out. reflexivity.
Qed.

(** X1: [getMetadata] never panics and never writes to standard output;
    when it ends the process the status is 1; and it logs at most one line
    to standard error. *)
Theorem getMetadata_never_panics_or_prints :
  (forall msg, (getMetadata w url out).1 <> Panic msg)
  /\ (forall code, (getMetadata w url out).1 = Exit code -> code = 1)
  /\ stdout (getMetadata w url out).2 = stdout out
  /\ (stderr (getMetadata w url out).2 = stderr out
      \/ exists line, stderr (getMetadata w url out).2 = stderr out ++ [line]).
Proof.
  destruct getMetadata_cases as [[line ->]|[->|[[md ->]|(md & line & ->)]]]; cbn.
  all: repeat split; try discriminate; eauto.
  intros code [= <-]. reflexivity.
Qed.

(** X2: [getMetadata] returns [nil] exactly when the request was built and
    answered and reading the body failed. *)
Theorem getMetadata_nil_iff_read_failure :
  (getMetadata w url out).1 = Ok None
  <-> exists req resp err,
        NewRequest w "GET" url = inr req
        /\ Do w req = inr resp
        /\ Body_err (Response_Body resp) = Some err.
Proof.
  unfold getMetadata, ReadAll. split.
  - destruct (NewRequest w "GET" url) as [err|req]; [discriminate|].
    destruct (Do w req) as [err|resp] eqn:Hdo; [discriminate|].
    destruct (Body_err (Response_Body resp)) as [err|] eqn:Hread.
    + intros _. exists req, resp, err. auto.
    + destruct (Unmarshal w (Body_data (Response_Body resp)) zeroMetadata)
        as [md [err|]]; discriminate.
  - intros (req & resp & err & -> & -> & ->). reflexivity.
Qed.

(** X3: [getMetadata] ends the process exactly when the request cannot be
    built or gets no response. *)
Theorem getMetadata_exits_iff_no_response :
  (exists code, (getMetadata w url out).1 = Exit code)
  <-> (exists err, NewRequest w "GET" url = inl err)
      \/ (exists req err, NewRequest w "GET" url = inr req /\ Do w req = inl err).
Proof.
  unfold getMetadata, ReadAll. split.
  - destruct (NewRequest w "GET" url) as [err|req]; [eauto|].
    destruct (Do w req) as [err|resp] eqn:Hdo; [eauto 6|].
    destruct (Body_err (Response_Body resp)) as [err|].
    + intros [code Hcode]. discriminate.
    + destruct (Unmarshal w (Body_data (Response_Body resp)) zeroMetadata)
        as [md [err|]]; intros [code Hcode]; discriminate.
  - intros [[err ->]|(req & err & -> & ->)]; eexists; reflexivity.
Qed.

End GetMetadataOutcomes.

(** ** More on the whole program *)

Section MainProperties.

Context {ContactDetails : Type}.

Implicit Type w : World ContactDetails.
Implicit Type md : Metadata ContactDetails.

(** What [main] does once the fetch has returned a document. *)
Lemma main_after_fetch w (out out1 : output) md :
  getMetadata w metadataURL out = (Ok (Some md), out1) ->
  main w out
  = match assignTopLevel (Some md) with
    | Ok csv0 =>
        let csvHRef := DownloadObject_HRef (DownloadList_CSV (Metadata_Downloads md)) in
        match populateColumns (Metadata_Dimensions md) (Metadata_UnitOfMeasure md)
                csvHRef out1 with
        | (Ok cols, out2) =>
            let csv :=
              setNotes (setTableSchema csv0 (mkColumns cols metadataURL))
                (addNotes csvHRef (default [] (Metadata_Alerts md))
                   (default [] (Metadata_UsageNotes md))) in
            match Marshal w csv with
            | inl err => (Panic err, out2)
            | inr b => (Ok tt, mkOutput (stdout out2 ++ [b]) (stderr out2))
            end
        | (Panic msg, out2) => (Panic msg, out2)
        | (Exit code, out2) => (Exit code, out2)
        end
    | Panic msg => (Panic msg, out1)
    | Exit code => (Exit code, out1)
    end.
Proof.
  intros Hfetch. unfold main, mbind. rewrite Hfetch. unfold lift at 1.
  destruct (assignTopLevel (Some md)) as [csv0|msg|code]; try reflexivity.
  cbn [deref lift].
  destruct (populateColumns _ _ _ out1) as [[cols|msg|code] out2]; try reflexivity.
  cbv zeta.
  match goal with
  | |- _ = match Marshal w ?c with _ => _ end => set (csv := c)
  end.
  match goal with
  | |- context [Marshal w ?c'] =>
      tryif is_var c' then fail else change c' with csv
  end.
  destruct (Marshal w csv) as [err|b]; reflexivity.
Qed.

(** X5: when the fetch returns a document with at least one contact,
    [main] hands [json.Marshal] the document whose top-level fields are
    those of the metadata (the first contact, the CSV link as URL, the
    title, description, release date, theme, license and frequency, the
    publisher as creator, the CSVW context), whose table schema holds the
    synthesised columns with the metadata URL as "aboutUrl", and whose
    notes are those of the alerts and usage notes (none where the document
    has a [nil] pointer) with the CSV link as target; it prints the bytes as
    one line, or panics with the error of [json.Marshal] having printed
    nothing. *)
Theorem main_marshals_projection w (out out1 : output) md
  (c : ContactDetails) (rest : list ContactDetails) :
  getMetadata w metadataURL out = (Ok (Some md), out1) ->
  Metadata_Contacts md = c :: rest ->
  exists csv cols,
    populateColumns (Metadata_Dimensions md) (Metadata_UnitOfMeasure md)
      (DownloadObject_HRef (DownloadList_CSV (Metadata_Downloads md))) out1
    = (Ok cols, out1)
    /\ main w out
       = match Marshal w csv with
         | inl err => (Panic err, out1)
         | inr b => (Ok tt, mkOutput (stdout out1 ++ [b]) (stderr out1))
         end
    /\ CSVW_TableSchema csv
       = {| Columns_C := cols; Columns_About := metadataURL |}
    /\ CSVW_Notes csv
       = addNotes (DownloadObject_HRef (DownloadList_CSV (Metadata_Downloads md)))
           (match Metadata_Alerts md with Some alerts => alerts | None => [] end)
           (match Metadata_UsageNotes md with Some usage => usage | None => [] end)
    /\ CSVW_Contact csv = c
    /\ CSVW_Context csv = "http://www.w3.org/ns/csvw"
    /\ CSVW_URL csv = DownloadObject_HRef (DownloadList_CSV (Metadata_Downloads md))
    /\ CSVW_Title csv = Metadata_Title md
    /\ CSVW_Description csv = Metadata_Description md
    /\ CSVW_Issued csv = Metadata_ReleaseDate md
    /\ CSVW_Theme csv = Metadata_Theme md
    /\ CSVW_License csv = Metadata_License md
    /\ CSVW_Frequency csv = Metadata_ReleaseFrequency md
    /\ CSVW_Creator csv
       = {| Creator_Name := Publisher_Name (Metadata_Publisher md);
            Creator_Type := Publisher_Type (Metadata_Publisher md);
            Creator_ID := Publisher_HRef (Metadata_Publisher md) |}.
Proof.
  intros Hfetch Hcontacts.
  destruct (assignTopLevel_cons md c rest Hcontacts)
    as (csv0 & Hrun & Hc & Hctx & Hurl & Htitle & Hdesc & Hiss & Hth & Hlic & Hfreq & Hcr).
  eexists. eexists. split; [apply populateColumns_eq|].
  split.
  - rewrite (main_after_fetch w out out1 md Hfetch), Hrun. cbv zeta.
    rewrite populateColumns_eq. reflexivity.
  - cbn [CSVW_TableSchema CSVW_Notes CSVW_Contact CSVW_Context CSVW_URL CSVW_Title
           CSVW_Description CSVW_Issued CSVW_Theme CSVW_License CSVW_Frequency
           CSVW_Creator setNotes setTableSchema].
    repeat split; assumption.
Qed.

(** X6: when the fetch returns a document without a contact, [main] panics
    with an index out of range and prints nothing. *)
Theorem main_no_contact_panics w (out out1 : output) md :
  getMetadata w metadataURL out = (Ok (Some md), out1) ->
  Metadata_Contacts md = [] ->
  main w out = (Panic indexOutOfRange, out1).
Proof.
  intros Hfetch Hcontacts.
  rewrite (main_after_fetch w out out1 md Hfetch).
  rewrite (assignTopLevel_nil md Hcontacts). reflexivity.
Qed.

(** X7: when the body cannot be decoded and the decoder leaves the document
    zero-valued, [main] logs the decode error and then panics with an index
    out of range at the contacts of the empty document: no CSVW document is
    printed. *)
Theorem main_undecodable_body_panics w (out : output)
  (req : Request) (resp : Response) (err : error) :
  NewRequest w "GET" metadataURL = inr req ->
  Do w req = inr resp ->
  Body_err (Response_Body resp) = None ->
  Unmarshal w (Body_data (Response_Body resp)) zeroMetadata = (zeroMetadata, Some err) ->
  main w out = (Panic indexOutOfRange, mkOutput (stdout out) (stderr out ++ [err])).
Proof.
  intros Hreq Hdo Hread Hdec.
  rewrite (main_after_fetch w out _ zeroMetadata
             (getMetadata_decode_failure w metadataURL out req resp zeroMetadata err
                Hreq Hdo Hread Hdec)).
  reflexivity.
Qed.

(** X8: when the request cannot be built or gets no response, [main] ends
    with status 1 after one line on standard error, and prints nothing. *)
Theorem main_exits_without_response w (out : output) :
  (forall err, NewRequest w "GET" metadataURL = inl err ->
     main w out = (Exit 1, mkOutput (stdout out) (stderr out ++ ["NewRequest: " +:+ err])))
  /\ (forall req err,
        NewRequest w "GET" metadataURL = inr req -> Do w req = inl err ->
        main w out = (Exit 1, mkOutput (stdout out) (stderr out ++ ["Do: " +:+ err]))).
Proof.
  split.
  - intros err Hreq. unfold main, mbind.
    rewrite (getMetadata_request_failure w metadataURL out err Hreq). reflexivity.
  - intros req err Hreq Hdo. unfold main, mbind.
    rewrite (getMetadata_transport_failure w metadataURL out req err Hreq Hdo).
    reflexivity.
Qed.

(** X9: [main] prints a document only when every step has succeeded:
    standard output gets exactly one line when the program returns, and
    nothing in every other case. *)
Theorem main_prints_only_on_success w (out : output) :
  ((main w out).1 = Ok tt
   /\ exists b, stdout (main w out).2 = stdout out ++ [b])
  \/ ((main w out).1 <> Ok tt
      /\ stdout (main w out).2 = stdout out).
Proof.
  destruct (getMetadata_cases w metadataURL out)
    as [[line Hfetch]|[Hfetch|[[md Hfetch]|(md & line & Hfetch)]]].
  - right. unfold main, mbind. rewrite Hfetch. cbn. split; [discriminate|reflexivity].
  - right. unfold main, mbind. rewrite Hfetch. cbn. split; [discriminate|reflexivity].
  - rewrite (main_after_fetch w out _ md Hfetch).
    destruct (assignTopLevel (Some md)) as [csv0|msg|code];
      [|right; cbn; split; [discriminate|reflexivity]..].
    cbv zeta. rewrite populateColumns_eq.
    match goal with |- context [Marshal w ?c] => destruct (Marshal w c) as [err|b] end.
    + right. cbn. split; [discriminate|reflexivity].
    + left. cbn. split; [reflexivity|eauto].
  - rewrite (main_after_fetch w out _ md Hfetch).
    destruct (assignTopLevel (Some md)) as [csv0|msg|code];
      [|right; cbn; split; [discriminate|reflexivity]..].
    cbv zeta. rewrite populateColumns_eq.
    match goal with |- context [Marshal w ?c] => destruct (Marshal w c) as [err|b] end.
    + right. cbn. split; [discriminate|reflexivity].
    + left. cbn. split; [reflexivity|eauto].
Qed.

End MainProperties.

Lemma main_marshals_projection_witness :
  main describingWorld noOutput
  = (Ok tt,
     mkOutput
       [ "ASHE table 7 <https://download.beta.ons.gov.uk/ashe-table-7-hours.csv>"
         +:+ " about <" +:+ metadataURL +:+ ">"
         +:+ " contact statistician@example.org columns 15 notes correction," ]
       []).
Proof.
  destruct (main_marshals_projection describingWorld noOutput noOutput sampleMetadata
              "statistician@example.org" ["press@example.org"] eq_refl eq_refl)
    as (csv & cols & Hcols & Hmain & Hschema & Hnotes & Hcontact & _ & Hurl & Htitle & _).
  rewrite populateColumns_eq in Hcols. injection Hcols as <-.
  rewrite Hmain. cbn [describingWorld Marshal]. unfold describe.
  rewrite Hschema, Hnotes, Hcontact, Hurl, Htitle. exact eq_refl.
Defined.

Lemma main_no_contact_panics_witness :
  main noContactWorld noOutput = (Panic indexOutOfRange, noOutput).
Proof.
  exact (main_no_contact_panics noContactWorld noOutput noOutput noContactMetadata
           eq_refl eq_refl).
Defined.

Lemma main_undecodable_body_panics_witness :
  main syntaxErrorWorld noOutput
  = (Panic indexOutOfRange,
     mkOutput [] ["invalid character '<' looking for beginning of value"]).
Proof.
  exact (main_undecodable_body_panics syntaxErrorWorld noOutput
           (mkRequest "GET" metadataURL)
           (mkResponse (mkBody "<html>Bad Gateway</html>" None))
           "invalid character '<' looking for beginning of value"
           eq_refl eq_refl eq_refl eq_refl).
Defined.

Lemma main_exits_without_response_witness :
  main unreachableWorld noOutput
  = (Exit 1,
     mkOutput [] ["Do: dial tcp: lookup api.beta.ons.gov.uk: no such host"]).
Proof.
  exact (proj2 (main_exits_without_response unreachableWorld noOutput)
           (mkRequest "GET" metadataURL)
           "dial tcp: lookup api.beta.ons.gov.uk: no such host"
           eq_refl eq_refl).
Defined.

(** ** More on column synthesis *)

(** The names looked up are the lowercased dimension tokens of the header. *)
Lemma dimensionNames_tokens (k : nat) (dimHeader : string) :
  Split headerRow "," !! (3 + 2 * k + 1)%nat = Some dimHeader ->
  (k < 6)%nat /\ dimensionNames !! k = Some (ToLower dimHeader).
Proof.
  rewrite headerRow_tokens. intros Hdim.
  assert (Hk : (k < 6)%nat).
  { apply lookup_lt_Some in Hdim. cbn [length] in Hdim. lia. }
  split; [exact Hk|].
  do 6 (destruct k as [|k]; [cbn in Hdim; injection Hdim as <-; exact eq_refl|]).
  lia.
Qed.

(** The result of [populateColumns] is a function of the six lookups. *)
Lemma populateColumns_ext (dims dims' : list CodeList) (unit csvURL : string)
  (out : output) :
  (forall name, name ∈ dimensionNames ->
     findDim dims name zeroCodeList = findDim dims' name zeroCodeList) ->
  populateColumns dims unit csvURL out = populateColumns dims' unit csvURL out.
Proof.
  intros Hsame. rewrite !populateColumns_eq. unfold dimColumns.
  change (ToLower "Time") with "time".
  change (ToLower "Geography") with "geography".
  change (ToLower "Hours") with "hours".
  change (ToLower "Sex") with "sex".
  change (ToLower "WorkingPattern") with "workingpattern".
  change (ToLower "Statistics") with "statistics".
  cbv zeta.
  rewrite !(Hsame "time"), !(Hsame "geography"), !(Hsame "hours"), !(Hsame "sex"),
    !(Hsame "workingpattern"), !(Hsame "statistics");
    first [reflexivity | unfold dimensionNames; set_solver].
Qed.

Section FindDimMore.

Variables (dimHeader : string) (zero : CodeList).

(** Dropping dimensions stored under other names does not change the
    lookup. *)
Lemma findDim_filter (keep : CodeList -> bool) (dims : list CodeList) :
  (forall d, CodeList_Name d = dimHeader -> keep d = true) ->
  findDim (List.filter keep dims) dimHeader zero = findDim dims dimHeader zero.
Proof.
  intros Hkeep. induction dims as [|d dims IH]; [reflexivity|].
  cbn [List.filter findDim].
  destruct (String.eqb_spec (CodeList_Name d) dimHeader) as [Heq|Hne].
  - rewrite (Hkeep d Heq). cbn [findDim].
    rewrite (proj2 (String.eqb_eq _ _) Heq). reflexivity.
  - destruct (keep d); [cbn [findDim]; rewrite (proj2 (String.eqb_neq _ _) Hne)|];
      exact IH.
Qed.

(** Among dimensions with pairwise distinct names at most one has the wanted
    name, so the order of the list does not matter. *)
Lemma findDim_unique (dims : list CodeList) (d : CodeList) :
  NoDup (CodeList_Name <$> dims) ->
  d ∈ dims ->
  CodeList_Name d = dimHeader ->
  findDim dims dimHeader zero = d.
Proof.
  induction dims as [|e dims IH]; intros Hnodup Hin Hname; [inversion Hin|].
  cbn in Hnodup. apply NoDup_cons in Hnodup as [Hfresh Hnodup].
  cbn [findDim]. destruct (String.eqb_spec (CodeList_Name e) dimHeader) as [Heq|Hne].
  - apply elem_of_cons in Hin as [->|Hin]; [reflexivity|].
    exfalso. apply Hfresh. apply list_elem_of_fmap. exists d. split; [congruence|exact Hin].
  - apply elem_of_cons in Hin as [->|Hin]; [contradiction|].
    apply IH; assumption.
Qed.

Lemma findDim_Permutation (dims dims' : list CodeList) :
  NoDup (CodeList_Name <$> dims) ->
  dims ≡ₚ dims' ->
  findDim dims dimHeader zero = findDim dims' dimHeader zero.
Proof.
  intros Hnodup Hperm.
  destruct (decide (Exists (fun e => CodeList_Name e = dimHeader) dims)) as [Hex|Hnone].
  - destruct (findDim_some dimHeader zero dims Hex) as [Hin Hname].
    symmetry. apply findDim_unique.
    + rewrite <- Hperm. exact Hnodup.
    + rewrite <- Hperm. exact Hin.
    + exact Hname.
  - apply not_Exists_Forall in Hnone; [|intros e; apply _].
    rewrite (findDim_none dimHeader zero dims Hnone).
    symmetry. apply findDim_none. rewrite <- Hperm. exact Hnone.
Qed.

End FindDimMore.

(** X14: dimensions stored under a name the header row does not ask for do
    not show in the result: removing them from the list changes nothing. *)
Theorem populateColumns_ignores_unnamed_dimensions
  (dims : list CodeList) (unit csvURL : string) (out : output) :
  populateColumns
    (List.filter (fun d => bool_decide (CodeList_Name d ∈ dimensionNames)) dims)
    unit csvURL out
  = populateColumns dims unit csvURL out.
Proof.
  apply populateColumns_ext. intros name Hname. apply findDim_filter.
  intros d ->. apply bool_decide_eq_true. exact Hname.
Qed.

(** X15: when the dimensions have pairwise distinct names, the order in
    which the list holds them does not show in the result. *)
Theorem populateColumns_order_irrelevant
  (dims dims' : list CodeList) (unit csvURL : string) (out : output) :
  NoDup (CodeList_Name <$> dims) ->
  dims ≡ₚ dims' ->
  populateColumns dims unit csvURL out = populateColumns dims' unit csvURL out.
Proof.
  intros Hnodup Hperm. apply populateColumns_ext. intros name _.
  apply findDim_Permutation; assumption.
Qed.

(** X13: every descriptor [populateColumns] returns has an "@id", and no
    two descriptors share one, whatever the CSV URL is. *)
Theorem populateColumns_ids_distinct
  (dims : list CodeList) (unit csvURL : string) (out : output) :
  exists cols : list Column,
    populateColumns dims unit csvURL out = (Ok cols, out)
    /\ Forall (fun c : Column => is_Some (c !! "@id")) cols
    /\ NoDup ((fun c : Column => c !! "@id") <$> cols).
Proof.
  eexists. split; [apply populateColumns_eq|].
  unfold dimColumns. cbn [app]. split.
  - repeat constructor;
      rewrite ?observationColumn_id, ?markingColumn_id, ?codeColumn_id, ?labelColumn_id;
      unfold positionId; eauto.
  - cbn [fmap list_fmap].
    rewrite observationColumn_id, !markingColumn_id, !codeColumn_id, !labelColumn_id.
    change (NoDup (positionId csvURL <$> seqZ 0 15)).
    unfold positionId.
    change (NoDup ((fun s => Some (VString (csvURL +:+ s)))
                     <$> ((fun i => "#col=" +:+ Itoa i) <$> seqZ 0 15))).
    apply NoDup_fmap_2.
    + intros s1 s2 [= Heq]. exact (String.app_inj csvURL _ _ Heq).
    + apply (bool_decide_unpack _). vm_compute. exact I.
Qed.


Lemma populateColumns_order_irrelevant_witness :
  populateColumns [timeDimension; sexDimension] "hours" sampleCSV noOutput
  = populateColumns [sexDimension; timeDimension] "hours" sampleCSV noOutput.
Proof.
  apply populateColumns_order_irrelevant.
  - apply (bool_decide_unpack _). exact I.
  - apply perm_swap.
Defined.

Lemma observationColumn_attributes (title unit csvURL : string) :
  observationColumn title unit csvURL !! "titles" = Some (VString title)
  /\ observationColumn title unit csvURL !! "name" = Some (VString unit)
  /\ observationColumn title unit csvURL !! "datatype" = Some (VString "number")
  /\ observationColumn title unit csvURL !! "required" = Some (VBool true).
Proof. repeat split; vm_compute; exact eq_refl. Qed.

Lemma markingColumn_titles (title csvURL : string) (i : Z) :
  markingColumn title csvURL i !! "titles" = Some (VString title).
Proof. unfold markingColumn. generalize (Itoa i). intros s. vm_compute. exact eq_refl. Qed.

Lemma codeColumn_name_required (codeHeader : string) (dim : CodeList)
  (csvURL : string) (pos : Z) :
  codeColumn codeHeader dim csvURL pos !! "name" = Some (VString codeHeader)
  /\ codeColumn codeHeader dim csvURL pos !! "required" = Some (VBool true).
Proof.
  unfold codeColumn. generalize (Itoa pos). intros s.
  split; vm_compute; exact eq_refl.
Qed.

Lemma labelColumn_name (dimHeader : string) (dim : CodeList) (csvURL : string) (pos : Z) :
  labelColumn dimHeader dim csvURL pos !! "name" = Some (VString dimHeader).
Proof. unfold labelColumn. generalize (Itoa pos). intros s. vm_compute. exact eq_refl. Qed.

(** X18: whatever the dimensions are, the observation column is titled
    "V4_2", named after the unit of measure, of datatype "number" and
    required, and the two marking columns are titled "Data marking" and
    "Coefficient of variation". *)
Theorem populateColumns_observation_and_markings
  (dims : list CodeList) (unit csvURL : string) (out : output) :
  let run := populateColumns dims unit csvURL out in
  attribute run 0 "titles" = Some (VString "V4_2")
  /\ attribute run 0 "name" = Some (VString unit)
  /\ attribute run 0 "datatype" = Some (VString "number")
  /\ attribute run 0 "required" = Some (VBool true)
  /\ attribute run 1 "titles" = Some (VString "Data marking")
  /\ attribute run 2 "titles" = Some (VString "Coefficient of variation").
Proof.
  cbv zeta. unfold attribute. rewrite populateColumns_eq. cbn [fst app lookup list_lookup base.mbind option_bind].
  destruct (observationColumn_attributes "V4_2" unit csvURL) as (Ht & Hn & Hd & Hr).
  repeat split; try assumption; apply markingColumn_titles.
Qed.

(** X17: for a pair of header tokens whose lowercased dimension token is
    the name of a stored dimension, the first such dimension [d] gives the
    code column its "valueURL", the HRef of [d] followed by "/codes/{", the
    code token and "}"; the code column is named by the code token as it
    stands and is required, and the label column is named by the name of
    [d]. *)
Theorem populateColumns_code_column_of_named_dimension
  (dims : list CodeList) (unit csvURL : string) (out : output)
  (k : nat) (codeHeader dimHeader : string)
  (pre post : list CodeList) (d : CodeList) :
  Split headerRow "," !! (3 + 2 * k)%nat = Some codeHeader ->
  Split headerRow "," !! (3 + 2 * k + 1)%nat = Some dimHeader ->
  dims = pre ++ d :: post ->
  Forall (fun e => CodeList_Name e <> ToLower dimHeader) pre ->
  CodeList_Name d = ToLower dimHeader ->
  let run := populateColumns dims unit csvURL out in
  attribute run (3 + 2 * k) "name" = Some (VString codeHeader)
  /\ attribute run (3 + 2 * k) "required" = Some (VBool true)
  /\ attribute run (3 + 2 * k) "valueURL"
     = Some (VString (((CodeList_HRef d +:+ "/codes/{") +:+ codeHeader) +:+ "}"))
  /\ attribute run (3 + 2 * k + 1) "name" = Some (VString (CodeList_Name d)).
Proof.
  intros Hcode Hdim -> Hpre Hd. cbv zeta. unfold attribute.
  destruct (populateColumns_pair (pre ++ d :: post) unit csvURL out k codeHeader dimHeader
              Hcode Hdim) as (cols & Hrun & Hc & Hl).
  rewrite Hrun. cbn [fst]. rewrite Hc, Hl.
  rewrite (findDim_first (ToLower dimHeader) zeroCodeList pre post d Hpre Hd).
  cbn [base.mbind option_bind].
  destruct (codeColumn_name_required codeHeader d csvURL (3 + 2 * Z.of_nat k)) as [Hn Hr].
  rewrite Hd, labelColumn_name, codeColumn_valueURL. auto.
Qed.

Section Shadowing.

Variables (dimHeader : string) (zero : CodeList).

Lemma findDim_app_found (dims extra : list CodeList) :
  Exists (fun e => CodeList_Name e = dimHeader) dims ->
  findDim (dims ++ extra) dimHeader zero = findDim dims dimHeader zero.
Proof.
  induction dims as [|e dims IH]; intros Hex; [inversion Hex|].
  cbn [app findDim]. destruct (String.eqb_spec (CodeList_Name e) dimHeader) as [Heq|Hne];
    [reflexivity|].
  apply IH. inversion Hex; subst; [contradiction|assumption].
Qed.

End Shadowing.

(** X16: once the list holds a dimension for each name the header row asks
    for, dimensions added behind them are never used, same names
    included: the first match wins. *)
Theorem populateColumns_first_match_shadows
  (dims extra : list CodeList) (unit csvURL : string) (out : output) :
  Forall (fun name => Exists (fun e => CodeList_Name e = name) dims) dimensionNames ->
  populateColumns (dims ++ extra) unit csvURL out = populateColumns dims unit csvURL out.
Proof.
  intros Hall. apply populateColumns_ext. intros name Hname.
  apply findDim_app_found. rewrite Forall_forall in Hall. apply Hall. exact Hname.
Qed.

Lemma populateColumns_code_column_of_named_dimension_witness :
  attribute (populateColumns [ageDimension; sexDimension] "hours" sampleCSV noOutput)
    9 "valueURL"
  = Some (VString "https://api.beta.ons.gov.uk/v1/code-lists/sex/codes/{Sex_codelist}").
Proof.
  destruct (populateColumns_code_column_of_named_dimension
              [ageDimension; sexDimension] "hours" sampleCSV noOutput
              3 "Sex_codelist" "Sex" [ageDimension] [] sexDimension
              eq_refl eq_refl eq_refl)
    as (_ & _ & Hvalue & _).
  - constructor; [discriminate | constructor].
  - exact eq_refl.
  - exact Hvalue.
Defined.

Lemma populateColumns_first_match_shadows_witness :
  populateColumns (allDimensions ++ [upperCaseTimeDimension; timeDimension])
    "hours" sampleCSV noOutput
  = populateColumns allDimensions "hours" sampleCSV noOutput.
Proof.
  apply populateColumns_first_match_shadows.
  apply (bool_decide_unpack _). exact I.
Defined.


(** ** More on note synthesis *)

Lemma append_nonempty_neq (s t : string) : t <> "" -> s +:+ t <> s.
Proof.
  intros Ht Heq. apply Ht.
  apply (String.app_inj s). rewrite Heq. clear.
  induction s as [|c s IH]; [reflexivity|].
  change (String c s = String c (s +:+ "")). rewrite <- IH. reflexivity.
Qed.

(** X19: the notes of a call are the notes of the alerts alone followed by
    the notes of the usage notes alone. *)
Theorem addNotes_splits (url : string) (alerts : list Alert) (notes : list UsageNote) :
  addNotes url alerts notes = addNotes url alerts [] ++ addNotes url [] notes.
Proof. rewrite !addNotes_eq. cbn [fmap list_fmap app]. rewrite app_nil_r. reflexivity. Qed.

(** X20: [addNotes] returns no note exactly when there is neither an alert
    nor a usage note. *)
Theorem addNotes_empty_iff (url : string) (alerts : list Alert) (notes : list UsageNote) :
  addNotes url alerts notes = [] <-> alerts = [] /\ notes = [].
Proof.
  rewrite addNotes_eq. split.
  - intros Hnil. apply app_eq_nil in Hnil as [Ha Hn].
    apply fmap_nil_inv in Ha. apply fmap_nil_inv in Hn. auto.
  - intros [-> ->]. reflexivity.
Qed.

(** X21: a note made of an alert and a note made of a usage note never have
    the same target, whatever the URL is. *)
Theorem addNotes_targets_tell_kinds_apart
  (url : string) (alerts : list Alert) (notes : list UsageNote) (i j : nat) (a u : Note) :
  addNotes url alerts notes !! i = Some a ->
  addNotes url alerts notes !! j = Some u ->
  (i < length alerts)%nat ->
  (length alerts <= j)%nat ->
  Note_Target a <> Note_Target u.
Proof.
  rewrite addNotes_eq. intros Ha Hu Hi Hj.
  rewrite lookup_app_l in Ha by (rewrite length_fmap; exact Hi).
  rewrite lookup_app_r in Hu by (rewrite length_fmap; exact Hj).
  apply list_lookup_fmap_Some in Ha as (x & -> & _).
  apply list_lookup_fmap_Some in Hu as (y & -> & _).
  cbn [Note_Target]. intros Heq. symmetry in Heq. revert Heq.
  apply append_nonempty_neq. discriminate.
Qed.

Lemma addNotes_targets_tell_kinds_apart_witness :
  sampleCSV <> sampleCSV +:+ "#col=need-to-store".
Proof.
  exact (addNotes_targets_tell_kinds_apart sampleCSV
           [mkAlert "Figures revised" "correction"]
           [mkUsageNote "Estimates are provisional" "Quality"]
           0 1
           (mkNote "correction" sampleCSV "Figures revised" "")
           (mkNote "Quality" (sampleCSV +:+ "#col=need-to-store")
              "Estimates are provisional" "")
           eq_refl eq_refl (le_n 1) (le_n 1)).
Defined.

Section AssignTopLevelFailures.

Context {ContactDetails : Type}.

(** X22: [assignTopLevel] never ends the process, and it panics in two
    cases only: with a nil dereference on a [nil] document, and with an
    index out of range on a document without a contact. *)
Theorem assignTopLevel_failures (m : option (Metadata ContactDetails)) :
  (forall code, assignTopLevel m <> Exit code)
  /\ (forall msg,
        assignTopLevel m = Panic msg
        <-> (m = None /\ msg = nilDereference)
            \/ (exists md, m = Some md /\ Metadata_Contacts md = []
                           /\ msg = indexOutOfRange)).
Proof.
  destruct m as [md|].
  - destruct (Metadata_Contacts md) as [|c rest] eqn:Hcontacts.
    + rewrite (assignTopLevel_nil md Hcontacts). split; [discriminate|].
      intros msg. split.
      * intros [= <-]. right. exists md. auto.
      * intros [[? _]|(md' & _ & _ & ->)]; [discriminate|reflexivity].
    + destruct (assignTopLevel_cons md c rest Hcontacts) as (csv & -> & _).
      split; [discriminate|]. intros msg. split; [discriminate|].
      intros [[? _]|(md' & [= <-] & Hnil & _)]; [discriminate|congruence].
  - rewrite assignTopLevel_nil_pointer. split; [discriminate|].
    intros msg. split.
    + intros [= <-]. left. auto.
    + intros [[_ ->]|(md' & ? & _)]; [reflexivity|discriminate].
Qed.

End AssignTopLevelFailures.


Section GetMetadataDocument.

Context {ContactDetails : Type}.

(** X4: [getMetadata] returns a document exactly when the request was
    built and answered and the body was read to its end, and the document
    is then what [json.Unmarshal] made of the whole body, starting from the
    zero-valued document, whether or not it reported an error. *)
Theorem getMetadata_document_iff (w : World ContactDetails) (url : string)
  (out : output) (md : Metadata ContactDetails) :
  (getMetadata w url out).1 = Ok (Some md)
  <-> exists req resp,
        NewRequest w "GET" url = inr req
        /\ Do w req = inr resp
        /\ Body_err (Response_Body resp) = None
        /\ (Unmarshal w (Body_data (Response_Body resp)) zeroMetadata).1 = md.
Proof.
  unfold getMetadata, ReadAll. split.
  - destruct (NewRequest w "GET" url) as [err|req]; [discriminate|].
    destruct (Do w req) as [err|resp] eqn:Hdo; [discriminate|].
    destruct (Body_err (Response_Body resp)) as [err|] eqn:Hread; [discriminate|].
    destruct (Unmarshal w (Body_data (Response_Body resp)) zeroMetadata)
      as [md' [err|]] eqn:Hdec; intros [= <-]; exists req, resp;
      rewrite Hdec; auto.
  - intros (req & resp & -> & -> & -> & <-).
    destruct (Unmarshal w (Body_data (Response_Body resp)) zeroMetadata)
      as [md' [err|]]; reflexivity.
Qed.

End GetMetadataDocument.
